(** * Items budgeting prototype ([app.py]): the store and its period arithmetic

    A shallow embedding of the database helpers of [app.py] (the two SQLite
    tables, the statements the helpers execute on them, and the Python code
    around the statements), followed by the properties of the store.

    Conventions of the embedding.
    - A Python [str] / SQLite [TEXT] value is the [string] of its UTF-8
      bytes; SQLite compares [TEXT] with the BINARY collation, i.e. bytewise,
      which is [String.compare].
    - A Python [int] / SQLite [INTEGER] value is a [Z].  An [INTEGER] has 64
      bits: the statements follow SQLite on the integers of [sqlite_integer]
      and on tables whose ids are below the largest one ([rowids_below_max]),
      and the properties that depend on it say so.
    - A Python [float] / SQLite [REAL] value is a [Q]: the program only
      stores such values, it never computes with them.
    - An exception is a value of [exn]; a call that may raise returns an
      [outcome]. *)

From Stdlib Require Import ZArith List String Ascii Bool Lia QArith.
From Stdlib Require Import Sorted Permutation.
Import ListNotations.
Open Scope string_scope.
Open Scope Z_scope.

(** ** Exceptions and outcomes *)

(** The table constraint whose violation makes SQLite refuse a statement. *)
Inductive constraint : Type :=
| UNIQUE_categories_name
| FOREIGN_KEY_clicks_category_id.

Inductive exn : Type :=
| IntegrityError (c : constraint)   (* sqlite3.IntegrityError *)
| ValueError                        (* datetime.date(...) out of range *)
| OverflowError.                    (* an int that does not fit a C int *)

Inductive outcome (A : Type) : Type :=
| Returned (a : A)
| Raised (e : exn).
Arguments Returned {A} a.
Arguments Raised {A} e.

Definition bind {A B : Type} (o : outcome A) (k : A -> outcome B) : outcome B :=
  match o with
  | Returned a => k a
  | Raised e => Raised e
  end.

Notation "'let*' x ':=' o 'in' k" := (bind o (fun x => k))
  (at level 10, x name, o at level 100, k at level 200).

(** ** [datetime.date] and [datetime.datetime] *)

Module Datetime.

(** The character of the decimal digit [n mod 10]. *)
Definition digit (n : Z) : ascii := ascii_of_N (48 + Z.to_N (n mod 10)).

(** ["%0wd" % n] for [0 <= n < 10^w]: exactly [w] decimal digits. *)
Fixpoint zfill (w : nat) (n : Z) : string :=
  match w with
  | O => ""
  | S w' => zfill w' (n / 10) ++ String (digit n) ""
  end.

Record date : Type := mkdate { year : Z; month : Z; day : Z }.

Definition is_leap (y : Z) : bool :=
  (y mod 4 =? 0) && (negb (y mod 100 =? 0) || (y mod 400 =? 0)).

Definition days_in_month (y m : Z) : Z :=
  if m =? 2 then (if is_leap y then 29 else 28)
  else if (m =? 4) || (m =? 6) || (m =? 9) || (m =? 11) then 30
  else 31.

Definition MINYEAR : Z := 1.
Definition MAXYEAR : Z := 9999.

(** Whether a Python [int] fits the C [int] the constructor of [date]
    converts its arguments to. *)
Definition c_int (z : Z) : bool := (- 2147483648 <=? z) && (z <=? 2147483647).

(** [date(y, m, d)]: the three arguments are converted to C [int]s first,
    which raises [OverflowError] for one that does not fit; then
    [ValueError] is raised outside the proleptic calendar. *)
Definition date_new (y m d : Z) : outcome date :=
  if negb (c_int y && c_int m && c_int d) then Raised OverflowError
  else if (MINYEAR <=? y) && (y <=? MAXYEAR) && (1 <=? m) && (m <=? 12)
          && (1 <=? d) && (d <=? days_in_month y m)
  then Returned (mkdate y m d)
  else Raised ValueError.

(** [date.isoformat()]: [YYYY-MM-DD]. *)
Definition date_isoformat (d : date) : string :=
  zfill 4 (year d) ++ "-" ++ zfill 2 (month d) ++ "-" ++ zfill 2 (day d).

Record datetime : Type := mkdatetime {
  dt_date : date;
  hour : Z; minute : Z; second : Z; microsecond : Z
}.

(** [datetime.isoformat()]: [YYYY-MM-DDTHH:MM:SS], followed by [.ffffff]
    when the microsecond is not zero. *)
Definition datetime_isoformat (t : datetime) : string :=
  date_isoformat (dt_date t) ++ "T" ++ zfill 2 (hour t) ++ ":"
    ++ zfill 2 (minute t) ++ ":" ++ zfill 2 (second t)
    ++ (if microsecond t =? 0 then "" else "." ++ zfill 6 (microsecond t)).



End Datetime.
Import Datetime.

(** What the process reads from its environment: [datetime.utcnow()] is the
    wall clock in UTC, [date.today()] is the calendar date in the local time
    zone of the process. *)
Record clock : Type := mkclock { utcnow : datetime; today : date }.


(** ** The SQLite database *)

Module Sqlite.

(** A row of [categories (id INTEGER PRIMARY KEY, name TEXT UNIQUE,
    items_per_period INTEGER, unit_value REAL, unit_label TEXT)]. *)
Record category_row : Type := mkcategory {
  cat_id : Z;
  name : string;
  items_per_period : Z;
  unit_value : Q;
  unit_label : string
}.

(** A row of [clicks (id INTEGER PRIMARY KEY, category_id INTEGER, ts TEXT,
    reason TEXT, amount REAL, FOREIGN KEY(category_id) REFERENCES
    categories(id))]. *)
Record click_row : Type := mkclick {
  click_id : Z;
  category_id : Z;
  ts : string;
  reason : string;
  amount : Q
}.

(** The content of the database file once both tables exist.  A table is
    the list of its rows in the order they were inserted. *)
Record database : Type := mkdb {
  categories : list category_row;
  clicks : list click_row
}.

Definition empty_db : database := mkdb [] [].

(** A connection: its pragmas and its view of the database, which holds
    the changes of the open transaction until [commit]. *)
Record connection : Type := mkconn {
  foreign_keys : bool;
  work : database
}.

(** [sqlite3.connect(DB_PATH)]: SQLite leaves foreign-key enforcement off
    on a new connection until [PRAGMA foreign_keys = ON] is executed. *)
Definition connect (disk : database) : connection :=
  mkconn false disk.

Definition commit (conn : connection) : database := work conn.

(** The largest of a list of row ids, if any. *)
Fixpoint max_rowid (ids : list Z) : option Z :=
  match ids with
  | [] => None
  | i :: rest =>
      match max_rowid rest with
      | None => Some i
      | Some m => Some (Z.max i m)
      end
  end.

(** The id given to a row inserted without one: 1 in an empty table, one
    more than the largest id otherwise (ids stay far below 2^63 - 1, where
    SQLite would pick an unused id at random). *)
Definition next_rowid (ids : list Z) : Z :=
  match max_rowid ids with
  | None => 1
  | Some m => m + 1
  end.

(** [INSERT INTO categories (name, items_per_period, unit_value,
    unit_label) VALUES (?, ?, ?, ?)], for a quota that is an [INTEGER]: a
    Python [int] beyond 64 bits is refused when it is bound, with an
    [OverflowError], before the statement runs. *)
Definition insert_category (conn : connection)
    (nm : string) (ipp : Z) (uv : Q) (ul : string) : outcome connection :=
  let cats := categories (work conn) in
  if existsb (fun r => (name r =? nm)%string) cats
  then Raised (IntegrityError UNIQUE_categories_name)
  else
    let row := mkcategory (next_rowid (map cat_id cats)) nm ipp uv ul in
    Returned (mkconn (foreign_keys conn)
                (mkdb (cats ++ [row]) (clicks (work conn)))).

(** [INSERT INTO clicks (category_id, ts, reason, amount) VALUES (?, ?, ?,
    ?)], for a category id that is an [INTEGER] (one beyond 64 bits is
    refused when it is bound).  The foreign key is checked only when the
    pragma is on. *)
Definition insert_click (conn : connection)
    (cid : Z) (t : string) (rs : string) (amt : Q) : outcome connection :=
  let db := work conn in
  if foreign_keys conn
     && negb (existsb (fun r => cat_id r =? cid) (categories db))
  then Raised (IntegrityError FOREIGN_KEY_clicks_category_id)
  else
    let row := mkclick (next_rowid (map click_id (clicks db))) cid t rs amt in
    Returned (mkconn (foreign_keys conn)
                (mkdb (categories db) (clicks db ++ [row]))).

(** [SELECT id FROM clicks ORDER BY id DESC LIMIT 1] and [fetchone()]. *)
Definition select_last_click_id (conn : connection) : option Z :=
  max_rowid (map click_id (clicks (work conn))).

(** [DELETE FROM clicks WHERE id = ?]. *)
Definition delete_click (conn : connection) (i : Z) : connection :=
  let db := work conn in
  mkconn (foreign_keys conn)
    (mkdb (categories db)
       (filter (fun r => negb (click_id r =? i)) (clicks db))).

(** The [WHERE] clause [category_id = ? AND ts >= ? AND ts < ?]. *)
Definition in_period (cid : Z) (start stop : string) (r : click_row) : bool :=
  (category_id r =? cid) && (start <=? ts r)%string && (ts r <? stop)%string.

(** [SELECT COUNT( * ) FROM clicks WHERE category_id = ? AND ts >= ? AND
    ts < ?]. *)
Definition count_clicks (conn : connection)
    (cid : Z) (start stop : string) : Z :=
  Z.of_nat
    (List.length (filter (in_period cid start stop) (clicks (work conn)))).

(** [ORDER BY id]: a stable insertion sort on the id. *)
Fixpoint insert_by_id (r : category_row) (l : list category_row)
    : list category_row :=
  match l with
  | [] => [r]
  | x :: l' => if cat_id r <? cat_id x then r :: l else x :: insert_by_id r l'
  end.

Definition order_by_id (l : list category_row) : list category_row :=
  fold_right insert_by_id [] l.

(** [SELECT id, name, items_per_period, unit_value, unit_label FROM
    categories ORDER BY id] and [fetchall()]. *)
Definition select_categories (conn : connection) : list category_row :=
  order_by_id (categories (work conn)).

(** What the [PRIMARY KEY] and [UNIQUE] clauses guarantee of every
    database the engine produces. *)
Record well_formed (db : database) : Prop := mkwf {
  wf_cat_ids : NoDup (map cat_id (categories db));
  wf_names : NoDup (map name (categories db));
  wf_click_ids : NoDup (map click_id (clicks db))
}.

End Sqlite.
Import Sqlite.

(** ** The helpers of [app.py] *)

(** The file [items_proto.db]: [None] while it does not exist. *)
Definition disk : Type := option database.

(** [os.remove(DB_PATH)]. *)
Definition os_remove (f : disk) : disk := None.

(** [init_db()]: [sqlite3.connect] creates the file when it is missing and
    [CREATE TABLE IF NOT EXISTS] leaves existing tables as they are.  The
    result is the database the file holds afterwards.  The script runs
    [init_db()] before anything else, so the other helpers are modelled on a
    database that has both tables. *)
Definition init_db (f : disk) : database :=
  match f with
  | None => empty_db
  | Some db => db
  end.

Definition get_conn (db : database) : connection := connect db.

(** A helper returns its outcome and the database the file holds afterwards:
    the committed one, or the one it started from when an exception left the
    helper before [conn.commit()]. *)
Definition helper (A : Type) : Type := outcome A * database.

Definition defaults : list (string * Z * Q * string) :=
  [ ("Burgers", 3, (16 # 1)%Q, "burger");
    ("Equipement", 3, (60 # 1)%Q, "equip");
    ("Bonbons", 20, (7 # 10)%Q, "bonbon") ].

(** The [for] loop of [add_default_categories]: an [IntegrityError] is caught
    and the loop goes on; any other exception leaves the loop. *)
Fixpoint seed_loop (conn : connection) (l : list (string * Z * Q * string))
    : outcome connection :=
  match l with
  | [] => Returned conn
  | (nm, ip, uv, ul) :: rest =>
      match insert_category conn nm ip uv ul with
      | Returned conn' => seed_loop conn' rest
      | Raised (IntegrityError _) => seed_loop conn rest
      | Raised e => Raised e
      end
  end.

Definition add_default_categories (db : database) : helper unit :=
  let conn := get_conn db in
  match seed_loop conn defaults with
  | Returned conn' => (Returned tt, commit conn')
  | Raised e => (Raised e, db)
  end.

Definition list_categories (db : database) : list category_row :=
  select_categories (get_conn db).

(** [int(items_per_period)] and [float(unit_value)] are the identity on the
    numbers the form hands over. *)
Definition create_category (db : database)
    (nm : string) (ipp : Z) (uv : Q) (ul : string) : helper unit :=
  let conn := get_conn db in
  match insert_category conn nm ipp uv ul with
  | Returned conn' => (Returned tt, commit conn')
  | Raised e => (Raised e, db)
  end.

Definition record_click (clk : clock) (db : database)
    (cid : Z) (rs : string) (amt : Q) : helper unit :=
  let conn := get_conn db in
  match insert_click conn cid (datetime_isoformat (utcnow clk)) rs amt with
  | Returned conn' => (Returned tt, commit conn')
  | Raised e => (Raised e, db)
  end.

(** [row] is a one-element tuple when a click exists, which is true in a
    condition whatever the id. *)
Definition undo_last_click (db : database) : helper unit :=
  let conn := get_conn db in
  match select_last_click_id conn with
  | Some i => (Returned tt, commit (delete_click conn i))
  | None => (Returned tt, commit conn)
  end.

(** The first day of the month after [(y, m)], as the code computes it. *)
Definition first_of_next_month (y m : Z) : outcome date :=
  if m =? 12 then date_new (y + 1) 1 1 else date_new y (m + 1) 1.

(** [clicks_this_period(category_id, year=None, month=None)]; the database is
    only read. *)
Definition clicks_this_period (clk : clock) (db : database)
    (cid : Z) (year month : option Z) : outcome Z :=
  let '(y, m) :=
    match year, month with
    | Some y, Some m => (y, m)
    | _, _ => (Datetime.year (today clk), Datetime.month (today clk))
    end in
  let conn := get_conn db in
  let* start := date_new y m 1 in
  let* next_month := first_of_next_month y m in
  Returned (count_clicks conn cid (date_isoformat start)
              (date_isoformat next_month)).

(** *** The pieces of the page that call the helpers *)

(** The white space of [str.strip()], by the length of its UTF-8 encoding.
    One byte: U+0009 to U+000D, U+001C to U+001F and the space U+0020. *)
Definition is_space (a : ascii) : bool :=
  let n := N_of_ascii a in
  ((9 <=? n) && (n <=? 13) || (28 <=? n) && (n <=? 32))%N.

(** Two bytes: U+0085 ([C2 85]) and U+00A0 ([C2 A0]). *)
Definition is_space2 (a b : ascii) : bool :=
  ((N_of_ascii a =? 194) && ((N_of_ascii b =? 133) || (N_of_ascii b =? 160)))%N.

(** Three bytes: U+1680 ([E1 9A 80]), U+2000 to U+200A ([E2 80 80] to
    [E2 80 8A]), U+2028, U+2029 and U+202F ([E2 80 A8], [E2 80 A9],
    [E2 80 AF]), U+205F ([E2 81 9F]) and U+3000 ([E3 80 80]). *)
Definition is_space3 (a b c : ascii) : bool :=
  let x := N_of_ascii a in
  let y := N_of_ascii b in
  let z := N_of_ascii c in
  ((x =? 225) && (y =? 154) && (z =? 128)
   || (x =? 226) && (y =? 128)
      && ((128 <=? z) && (z <=? 138) || (z =? 168) || (z =? 169) || (z =? 175))
   || (x =? 226) && (y =? 129) && (z =? 159)
   || (x =? 227) && (y =? 128) && (z =? 128))%N.

(** The text without the white space it starts with.  With [backwards] the
    text is read from its last byte, so that the bytes of a character come
    in reverse. *)
Fixpoint drop_spaces (backwards : bool) (s : string) : string :=
  match s with
  | String a s1 =>
      if is_space a then drop_spaces backwards s1
      else
        match s1 with
        | String b s2 =>
            if (if backwards then is_space2 b a else is_space2 a b)
            then drop_spaces backwards s2
            else
              match s2 with
              | String c s3 =>
                  if (if backwards then is_space3 c b a else is_space3 a b c)
                  then drop_spaces backwards s3
                  else s
              | EmptyString => s
              end
        | EmptyString => s
        end
  | EmptyString => EmptyString
  end.

Fixpoint reversed (s : string) : string :=
  match s with
  | String a s' => reversed s' ++ String a EmptyString
  | EmptyString => EmptyString
  end.

Definition lstrip (s : string) : string := drop_spaces false s.

Definition rstrip (s : string) : string :=
  reversed (drop_spaces true (reversed s)).

(** [str.strip()]. *)
Definition strip (s : string) : string := rstrip (lstrip s).

(** A string is true in a condition when it is not empty. *)
Definition truthy (s : string) : bool :=
  match s with EmptyString => false | String _ _ => true end.

(** The body of the form [new_cat] of the sidebar (lines 148-150) on the
    values of its widgets: [submitted] is the value of
    [st.form_submit_button], the other arguments are the values of the four
    inputs.  What the number inputs can hold is in [new_cat] below. *)
Definition new_cat_form (db : database) (submitted : bool)
    (nm : string) (ipp : Z) (uv : Q) (ul : string) : helper unit :=
  if submitted && truthy (strip nm)
  then create_category db (strip nm) ipp uv
         (if truthy (strip ul) then strip ul else "item")
  else (Returned tt, db).

(** The statements of lines 160-162: the file is removed when it exists and
    [init_db()] creates it again; line 163 then calls
    [add_default_categories()].  They are what the reset would run: in the
    script they are the body of the [if] of line 159, whose condition
    [st.confirm := st.checkbox(...)] assigns to an attribute, which Python
    refuses to compile. *)
Definition reset_all (f : disk) : database :=
  let f := match f with Some _ => os_remove f | None => f end in
  init_db f.

(** A value of [st.number_input(..., min_value=...)]: the input holds no
    number below its minimum. *)
Record int_input (min_value : Z) : Type := mkint_input {
  int_value : Z;
  int_min : min_value <= int_value
}.
Arguments int_value {min_value} i.

Record float_input (min_value : Q) : Type := mkfloat_input {
  float_value : Q;
  float_min : (min_value <= float_value)%Q
}.
Arguments float_value {min_value} f.

(** The form [new_cat] (lines 143-150) with its inputs: the quota is an
    input of minimum 1 and the unit value an input of minimum 0.0. *)
Definition new_cat (db : database) (submitted : bool)
    (nm : string) (ipp : int_input 1) (uv : float_input 0) (ul : string)
    : helper unit :=
  new_cat_form db submitted nm (int_value ipp) (float_value uv) ul.

(** The two buttons of a category [c] (lines 184-196): the first records
    one item, the second the quantity of an input of minimum 1, as a
    float, with the reason selected. *)
Definition plus_one_button (clk : clock) (db : database) (c : category_row)
    : helper unit :=
  record_click clk db (cat_id c) "—" 1.

Definition custom_button (clk : clock) (db : database) (c : category_row)
    (rs : string) (custom : int_input 1) : helper unit :=
  record_click clk db (cat_id c) rs (inject_Z (int_value custom)).

(** [max(0, items_per_period - used)] (lines 177 and 214). *)
Definition remaining (ipp used : Z) : Z := Z.max 0 (ipp - used).

(** A row of the table "Vue par période". *)
Record summary_row : Type := mksummary {
  s_category : string;
  s_items_per_period : Z;
  s_used : Z;
  s_remaining : Z;
  s_unit_value : Q;
  s_unit_label : string
}.

(** The loop of lines 212-215 over [cats = list_categories()]. *)
Fixpoint summary_loop (clk : clock) (db : database) (cats : list category_row)
    : outcome (list summary_row) :=
  match cats with
  | [] => Returned []
  | c :: rest =>
      let* used := clicks_this_period clk db (cat_id c) None None in
      let* rows := summary_loop clk db rest in
      Returned (mksummary (name c) (items_per_period c) used
                  (remaining (items_per_period c) used)
                  (unit_value c) (unit_label c) :: rows)
  end.

Definition summary (clk : clock) (db : database) : outcome (list summary_row) :=
  summary_loop clk db (list_categories db).

(** *** The history of clicks *)

(** A row of the history: the columns [id], [category], [ts], [reason] and
    [amount] of the data frame. *)
Record history_row : Type := mkhistory {
  h_id : Z;
  h_category : string;
  h_ts : string;
  h_reason : string;
  h_amount : Q
}.

(** The rows [clicks c JOIN categories cat ON c.category_id = cat.id]
    gives for one click: one per category with the id the click names. *)
Definition join_click (cats : list category_row) (c : click_row)
    : list history_row :=
  map (fun cat =>
         mkhistory (click_id c) (name cat) (ts c) (reason c) (amount c))
    (filter (fun cat => category_id c =? cat_id cat) cats).

(** [ORDER BY c.id DESC]: an insertion sort on the id, largest first. *)
Fixpoint insert_by_id_desc (r : history_row) (l : list history_row)
    : list history_row :=
  match l with
  | [] => [r]
  | x :: l' =>
      if h_id x <? h_id r then r :: l else x :: insert_by_id_desc r l'
  end.

Definition order_by_id_desc (l : list history_row) : list history_row :=
  fold_right insert_by_id_desc [] l.

(** [SELECT c.id, cat.name, c.ts, c.reason, c.amount FROM clicks c JOIN
    categories cat ON c.category_id = cat.id ORDER BY c.id DESC] and
    [fetchall()]. *)
Definition select_history (conn : connection) : list history_row :=
  order_by_id_desc
    (flat_map (join_click (categories (work conn))) (clicks (work conn))).

(** [get_clicks_dataframe()]: the data frame has the fetched rows, and only
    the column names when there is none; it is modelled by its rows. *)
Definition get_clicks_dataframe (db : database) : list history_row :=
  let conn := get_conn db in
  let rows := select_history conn in
  match rows with
  | _ :: _ => rows
  | [] => []
  end.

(** [df.empty]. *)
Definition df_empty (df : list history_row) : bool :=
  match df with [] => true | _ :: _ => false end.

(** ** Vocabulary of the statements *)


(** The two bounds [clicks_this_period] hands to the query for [(y, m)]. *)
Definition period_start (y m : Z) : string := date_isoformat (mkdate y m 1).

Definition period_stop (y m : Z) : string :=
  date_isoformat (if m =? 12 then mkdate (y + 1) 1 1 else mkdate y (m + 1) 1).

(** The months for which both bounds are dates: every month of the calendar
    of [datetime.date] but the last one, whose successor is past [MAXYEAR]. *)
Definition month_in_range (y m : Z) : Prop :=
  MINYEAR <= y <= MAXYEAR /\ 1 <= m <= 12 /\ (m = 12 -> y < MAXYEAR).


(** The name of an entry of [defaults]. *)
Definition default_name (e : string * Z * Q * string) : string :=
  let '(nm, _, _, _) := e in nm.

(** The database of a first start: no file, [init_db()], then
    [add_default_categories()] (lines 132-133). *)
Definition first_start : helper unit := add_default_categories (init_db None).

(** [n] calls of [undo_last_click] in a row. *)
Fixpoint undo_times (n : nat) (db : database) : database :=
  match n with
  | O => db
  | S k => undo_times k (snd (undo_last_click db))
  end.




(** Every click names the id of a category of the table. *)
Definition referential (db : database) : Prop :=
  forall c, In c (clicks db) -> In (category_id c) (map cat_id (categories db)).

(** The integers SQLite stores: a Python [int] outside them cannot be bound
    to a statement ([OverflowError]). *)
Definition sqlite_integer (z : Z) : Prop :=
  - 9223372036854775808 <= z <= 9223372036854775807.

(** The ids below the largest row id: while a table has only such ids, the
    id of a new row is one more than the largest. *)
Definition rowids_below_max (ids : list Z) : Prop :=
  forall i, In i ids -> i < 9223372036854775807.

(** The no-break space U+00A0, as its two bytes. *)
Definition nbsp : string :=
  String (ascii_of_N 194) (String (ascii_of_N 160) EmptyString).

(** The order of [ORDER BY id] on categories and of [ORDER BY c.id DESC] on
    the rows of the history. *)
Definition by_id (a b : category_row) : Prop := cat_id a <= cat_id b.

Definition newest_first (a b : history_row) : Prop := h_id b <= h_id a.

(** * Properties *)

(** ** Bytewise order of formatted numbers and dates *)

Section TextOrder.








End TextOrder.

(** ** Calendar months as intervals of timestamps *)

Section Periods.









End Periods.

(** ** [clicks_this_period] *)

Section ClicksThisPeriod.

Variable clk : clock.

Lemma date_new_first (y m : Z) :
  MINYEAR <= y <= MAXYEAR -> 1 <= m <= 12 ->
  date_new y m 1 = Returned (mkdate y m 1).
Proof.
  intros Hy Hm. unfold date_new, c_int. unfold MINYEAR, MAXYEAR in *.
  assert (Hd : 1 <= days_in_month y m).
  { unfold days_in_month. destruct (m =? 2); [destruct (is_leap y); lia|].
    destruct ((m =? 4) || (m =? 6) || (m =? 9) || (m =? 11)); lia. }
  repeat match goal with
         | |- context [?a <=? ?b] =>
             let H := fresh in destruct (Z.leb_spec a b) as [H|H]; [|lia]
         end.
  reflexivity.
Qed.

(** With both bounds in the calendar the helper returns the count of the
    query between them. *)
Lemma clicks_this_period_count (db : database) (cid y m : Z) :
  month_in_range y m ->
  clicks_this_period clk db cid (Some y) (Some m)
  = Returned (count_clicks (get_conn db) cid
                (period_start y m) (period_stop y m)).
Proof.
  intros (Hy & Hm & Hlast). unfold MINYEAR, MAXYEAR in *.
  unfold clicks_this_period, first_of_next_month, period_start, period_stop.
  rewrite date_new_first by (unfold MINYEAR, MAXYEAR; lia). simpl bind.
  destruct (Z.eqb_spec m 12) as [->|Hne];
    rewrite date_new_first by (unfold MINYEAR, MAXYEAR; lia); reflexivity.
Qed.

(** The last month of the calendar has no successor: the helper raises. *)
Lemma clicks_this_period_last_month (db : database) (cid : Z) :
  clicks_this_period clk db cid (Some 9999) (Some 12) = Raised ValueError.
Proof. reflexivity. Qed.


Lemma count_clicks_insert (db : database) (cid : Z) (start stop : string)
    (r : click_row) :
  count_clicks (get_conn (mkdb (categories db) (clicks db ++ [r])))
    cid start stop
  = count_clicks (get_conn db) cid start stop
    + (if in_period cid start stop r then 1 else 0).
Proof.
  unfold count_clicks. simpl. rewrite filter_app, length_app. simpl.
  destruct (in_period cid start stop r); simpl; lia.
Qed.

End ClicksThisPeriod.



(** ** Row ids and the integrity of the tables *)

Section Rowids.

Lemma max_rowid_none (ids : list Z) : max_rowid ids = None <-> ids = [].
Proof.
  destruct ids as [|i rest]; simpl; [tauto|].
  destruct (max_rowid rest); split; discriminate.
Qed.

Lemma max_rowid_in (ids : list Z) (m : Z) :
  max_rowid ids = Some m -> In m ids.
Proof.
  revert m; induction ids as [|i rest IH]; intros m; simpl; [discriminate|].
  destruct (max_rowid rest) as [m'|].
  - intros [= <-]. destruct (Z.max_spec i m') as [[_ ->]|[_ ->]]; auto.
  - intros [= <-]. auto.
Qed.

Lemma max_rowid_upper (ids : list Z) (m : Z) :
  max_rowid ids = Some m -> forall i, In i ids -> i <= m.
Proof.
  revert m; induction ids as [|j rest IH]; intros m; simpl; [discriminate|].
  destruct (max_rowid rest) as [m'|] eqn:E.
  - intros [= <-] i [->|Hi]; [lia|]. specialize (IH m' eq_refl i Hi). lia.
  - intros [= <-] i [->|Hi]; [lia|].
    apply max_rowid_none in E. subst rest. contradiction.
Qed.

(** The id of a new row is not the id of a row of the table. *)
Lemma next_rowid_fresh (ids : list Z) : ~ In (next_rowid ids) ids.
Proof.
  unfold next_rowid. destruct (max_rowid ids) as [m|] eqn:E.
  - intros Hin. pose proof (max_rowid_upper ids m E _ Hin). lia.
  - apply max_rowid_none in E. subst ids. simpl. tauto.
Qed.

Lemma NoDup_snoc {A : Type} (l : list A) (x : A) :
  NoDup l -> ~ In x l -> NoDup (l ++ [x]).
Proof.
  intros Hl Hx. apply NoDup_app; auto.
  - constructor; [simpl; tauto | constructor].
  - intros a Ha [<-|[]]. contradiction.
Qed.

Lemma existsb_name (nm : string) (cats : list category_row) :
  existsb (fun r => (name r =? nm)%string) cats = true
  <-> In nm (map name cats).
Proof.
  rewrite existsb_exists, in_map_iff. split.
  - intros (r & Hr & He). apply String.eqb_eq in He. eauto.
  - intros (r & He & Hr). exists r. split; [assumption|].
    now apply String.eqb_eq.
Qed.

Lemma empty_db_well_formed : well_formed empty_db.
Proof. constructor; simpl; constructor. Qed.

Lemma insert_category_well_formed (conn conn' : connection)
    (nm : string) (ipp : Z) (uv : Q) (ul : string) :
  well_formed (work conn) ->
  insert_category conn nm ipp uv ul = Returned conn' ->
  well_formed (work conn').
Proof.
  intros [Hc Hn Hk]. unfold insert_category.
  destruct (existsb _ _) eqn:E; [discriminate|]. intros [= <-].
  constructor; simpl; auto; rewrite map_app; simpl; apply NoDup_snoc; auto.
  - apply next_rowid_fresh.
  - intros Hin. apply existsb_name in Hin. congruence.
Qed.

Lemma insert_click_well_formed (conn conn' : connection)
    (cid : Z) (t rs : string) (amt : Q) :
  well_formed (work conn) ->
  insert_click conn cid t rs amt = Returned conn' ->
  well_formed (work conn').
Proof.
  intros [Hc Hn Hk]. unfold insert_click.
  destruct (_ && _); [discriminate|]. intros [= <-].
  constructor; simpl; auto. rewrite map_app. simpl.
  apply NoDup_snoc; auto. apply next_rowid_fresh.
Qed.

(** A [DELETE] keeps the ids of the remaining clicks distinct. *)
Lemma click_ids_after_delete (keep : click_row -> bool)
    (rows : list click_row) :
  NoDup (map click_id rows) -> NoDup (map click_id (filter keep rows)).
Proof.
  intros Hnd. induction rows as [|r rows IH]; simpl in *; [constructor|].
  apply NoDup_cons_iff in Hnd as [Hfresh Hrest].
  destruct (keep r); simpl; [|now apply IH].
  constructor; [|now apply IH].
  rewrite in_map_iff. intros (x & Hid & Hx).
  apply filter_In in Hx as [Hx _].
  apply Hfresh. rewrite <- Hid. now apply in_map.
Qed.

Lemma delete_click_well_formed (conn : connection) (i : Z) :
  well_formed (work conn) -> well_formed (work (delete_click conn i)).
Proof.
  intros [Hc Hn Hk]. constructor; simpl; auto.
  now apply click_ids_after_delete.
Qed.

(** Deleting by an id that one row has removes that row and no other. *)
Lemma delete_one (l : list click_row) (r : click_row) :
  NoDup (map click_id l) -> In r l ->
  S (List.length (filter (fun x => negb (click_id x =? click_id r)) l))
  = List.length l.
Proof.
  induction l as [|a l IH]; simpl; intros Hnd Hin; [contradiction|].
  inversion Hnd as [|? ? Hnin Hnd']; subst.
  destruct Hin as [->|Hin].
  - rewrite Z.eqb_refl. simpl. f_equal.
    f_equal. apply forallb_filter_id. apply forallb_forall.
    intros x Hx. apply negb_true_iff, Z.eqb_neq. intros He.
    apply Hnin. rewrite <- He. now apply in_map.
  - destruct (Z.eqb_spec (click_id a) (click_id r)) as [He|Hne]; simpl.
    + exfalso. apply Hnin. rewrite He. now apply in_map.
    + f_equal. now apply IH.
Qed.

End Rowids.

(** ** Recording and undoing clicks *)

Section Clicks.

Lemma NoDup_map_eq {A B : Type} (f : A -> B) (l : list A) (x y : A) :
  NoDup (map f l) -> In x l -> In y l -> f x = f y -> x = y.
Proof.
  induction l as [|a l IH]; simpl; intros Hnd Hx Hy He; [contradiction|].
  inversion Hnd as [|? ? Hnin Hnd']; subst.
  destruct Hx as [->|Hx], Hy as [->|Hy]; auto.
  - exfalso. apply Hnin. rewrite He. now apply in_map.
  - exfalso. apply Hnin. rewrite <- He. now apply in_map.
Qed.

(** [record_click] runs no check of its own and its connection checks no
    foreign key: it always appends the row and returns. *)
Lemma record_click_appends (clk : clock) (db : database)
    (cid : Z) (rs : string) (amt : Q) :
  record_click clk db cid rs amt
  = (Returned tt,
     mkdb (categories db)
       (clicks db ++ [mkclick (next_rowid (map click_id (clicks db))) cid
                        (datetime_isoformat (utcnow clk)) rs amt])).
Proof. reflexivity. Qed.

Lemma record_click_well_formed (clk : clock) (db : database)
    (cid : Z) (rs : string) (amt : Q) :
  well_formed db -> well_formed (snd (record_click clk db cid rs amt)).
Proof.
  intros H. rewrite record_click_appends. simpl.
  apply (insert_click_well_formed (get_conn db) _ cid
           (datetime_isoformat (utcnow clk)) rs amt H eq_refl).
Qed.

Lemma undo_last_click_well_formed (db : database) :
  well_formed db -> well_formed (snd (undo_last_click db)).
Proof.
  intros H. unfold undo_last_click.
  destruct (select_last_click_id (get_conn db)); simpl; auto.
  now apply (delete_click_well_formed (get_conn db)).
Qed.

End Clicks.

(** C2 (the code departs from it). [record_click] accepts a category id that
    no category has: whatever the id, it returns without an exception and the
    click is written.  On the freshly seeded database, whose ids are 1, 2 and
    3, a click for category 99 is stored; the same statement on a connection
    that enforces the foreign key of the schema raises [IntegrityError]. *)
Theorem record_click_unknown_category
    (clk : clock) (db : database) (cid : Z) (rs : string) (amt : Q) :
  fst (record_click clk db cid rs amt) = Returned tt
  /\ clicks (snd (record_click clk db cid rs amt))
     = (clicks db ++ [mkclick (next_rowid (map click_id (clicks db))) cid
                        (datetime_isoformat (utcnow clk)) rs amt])%list
  /\ (let seeded := snd (add_default_categories empty_db) in
      map cat_id (list_categories seeded) = [1; 2; 3]
      /\ record_click clk seeded 99 "-" 1
         = (Returned tt,
            mkdb (categories seeded)
              [mkclick 1 99 (datetime_isoformat (utcnow clk)) "-" 1])
      /\ insert_click (mkconn true seeded) 99
           (datetime_isoformat (utcnow clk)) "-" 1
         = Raised (IntegrityError FOREIGN_KEY_clicks_category_id)).
Proof.
  rewrite record_click_appends. repeat split; reflexivity.
Qed.

(** C6. On a database whose ids are unique, [undo_last_click] returns
    without an exception and leaves the categories alone.  With no click it
    changes nothing.  Otherwise it removes one click [r], whose id is the
    highest of the table whatever its category: the table is one row
    shorter and holds exactly the other rows. *)
Theorem undo_last_click_highest_id (db : database) :
  well_formed db ->
  fst (undo_last_click db) = Returned tt
  /\ categories (snd (undo_last_click db)) = categories db
  /\ (clicks db = [] -> snd (undo_last_click db) = db)
  /\ (clicks db <> [] ->
      exists r : click_row,
        In r (clicks db)
        /\ (forall x, In x (clicks db) -> click_id x <= click_id r)
        /\ clicks (snd (undo_last_click db))
           = filter (fun x => negb (click_id x =? click_id r)) (clicks db)
        /\ S (List.length (clicks (snd (undo_last_click db))))
           = List.length (clicks db)
        /\ (forall x, In x (clicks (snd (undo_last_click db)))
                      <-> In x (clicks db) /\ x <> r)).
Proof.
  intros [_ _ Hk]. unfold undo_last_click, select_last_click_id. simpl.
  destruct (max_rowid (map click_id (clicks db))) as [m|] eqn:E; simpl.
  - split; [reflexivity|]. split; [reflexivity|]. split.
    + intros Hnil. rewrite Hnil in E. discriminate.
    + intros _. pose proof (max_rowid_in _ _ E) as Hin.
      apply in_map_iff in Hin as (r & <- & Hr).
      exists r. split; [exact Hr|]. split.
      { intros x Hx. apply (max_rowid_upper _ _ E). now apply in_map. }
      split; [reflexivity|]. split; [now apply delete_one|].
      intros x. rewrite filter_In, negb_true_iff, Z.eqb_neq. split.
      * intros [Hx Hne]. split; [exact Hx|]. now intros ->.
      * intros [Hx Hne]. split; [exact Hx|]. intros He. apply Hne.
        now apply (NoDup_map_eq click_id (clicks db)).
  - split; [reflexivity|]. split; [reflexivity|]. split.
    + now destruct db.
    + intros Hne. apply max_rowid_none, map_eq_nil in E. contradiction.
Qed.

Lemma undo_last_click_highest_id_witness :
  well_formed (mkdb [mkcategory 1 "Burgers" 3 16 "burger"]
                 [mkclick 1 1 "2024-01-15T12:00:00" "faim" 1;
                  mkclick 2 1 "2024-01-16T12:00:00" "envie" 1])
  /\ fst (undo_last_click
            (mkdb [mkcategory 1 "Burgers" 3 16 "burger"]
               [mkclick 1 1 "2024-01-15T12:00:00" "faim" 1;
                mkclick 2 1 "2024-01-16T12:00:00" "envie" 1]))
     = Returned tt.
Proof.
  assert (H : well_formed (mkdb [mkcategory 1 "Burgers" 3 16 "burger"]
                 [mkclick 1 1 "2024-01-15T12:00:00" "faim" 1;
                  mkclick 2 1 "2024-01-16T12:00:00" "envie" 1])).
  { constructor; simpl; repeat constructor; simpl; intuition discriminate. }
  split; [exact H|].
  exact (proj1 (undo_last_click_highest_id _ H)).
Defined.

(** C10. Neither [record_click] nor [undo_last_click] touches the table of
    categories: [list_categories] returns the same rows before and after. *)
Theorem clicks_leave_categories
    (clk : clock) (db : database) (cid : Z) (rs : string) (amt : Q) :
  list_categories (snd (record_click clk db cid rs amt)) = list_categories db
  /\ list_categories (snd (undo_last_click db)) = list_categories db.
Proof.
  split.
  - now rewrite record_click_appends.
  - unfold undo_last_click.
    now destruct (select_last_click_id (get_conn db)).
Qed.

(** ** Creating categories *)

Section Categories.

Lemma create_category_fresh (db : database)
    (nm : string) (ipp : Z) (uv : Q) (ul : string) :
  ~ In nm (map name (categories db)) ->
  create_category db nm ipp uv ul
  = (Returned tt,
     mkdb (categories db
             ++ [mkcategory (next_rowid (map cat_id (categories db)))
                   nm ipp uv ul])
       (clicks db)).
Proof.
  intros Hnew. unfold create_category, insert_category. simpl.
  destruct (existsb _ _) eqn:E; [|reflexivity].
  apply existsb_name in E. contradiction.
Qed.

Lemma create_category_taken (db : database)
    (nm : string) (ipp : Z) (uv : Q) (ul : string) :
  In nm (map name (categories db)) ->
  create_category db nm ipp uv ul
  = (Raised (IntegrityError UNIQUE_categories_name), db).
Proof.
  intros Hin. unfold create_category, insert_category. simpl.
  apply existsb_name in Hin. now rewrite Hin.
Qed.

Lemma create_category_well_formed (db : database)
    (nm : string) (ipp : Z) (uv : Q) (ul : string) :
  well_formed db -> well_formed (snd (create_category db nm ipp uv ul)).
Proof.
  intros Hwf. unfold create_category.
  destruct (insert_category (get_conn db) nm ipp uv ul) as [conn'|e] eqn:E;
    simpl; [|exact Hwf].
  exact (insert_category_well_formed (get_conn db) conn' nm ipp uv ul Hwf E).
Qed.

Lemma truthy_false (s : string) : truthy s = false <-> s = "".
Proof. destruct s; simpl; split; congruence. Qed.

(** What the form leaves in the table: the rows it found, and at most one
    row, made of the stripped name and of the values of the inputs. *)
Lemma new_cat_rows (db : database) (submitted : bool) (raw : string)
    (qi : int_input 1) (vi : float_input 0) (label : string)
    (row : category_row) :
  In row (categories (snd (new_cat db submitted raw qi vi label))) ->
  In row (categories db)
  \/ (name row = strip raw /\ name row <> ""
      /\ 1 <= items_per_period row /\ (0 <= unit_value row)%Q).
Proof.
  unfold new_cat, new_cat_form.
  destruct (submitted && truthy (strip raw)) eqn:Hgo; [|now left].
  apply andb_true_iff in Hgo as [_ Hname].
  unfold create_category, insert_category, get_conn, connect. simpl.
  destruct (existsb _ _); simpl; [now left|].
  intros Hrow. apply in_app_or in Hrow as [Hold|[<-|[]]]; [now left|].
  right. simpl. split; [reflexivity|]. split.
  - intros He. rewrite He in Hname. discriminate.
  - split; [apply int_min | apply float_min].
Qed.

Lemma new_cat_blank (db : database) (submitted : bool) (raw : string)
    (qi : int_input 1) (vi : float_input 0) (label : string) :
  strip raw = "" -> new_cat db submitted raw qi vi label = (Returned tt, db).
Proof.
  intros Hraw. unfold new_cat, new_cat_form. rewrite Hraw. simpl.
  now rewrite andb_false_r.
Qed.

End Categories.

(** C3, as the code has it. [create_category] and [record_click] reject
    nothing themselves.  Within the limits of SQLite (a quota and a category
    id that fit its integers, ids below the largest one), a category whose
    name is not taken is stored as it is given and the call returns, be the
    quota non-positive, the unit value negative or the name blank, and a
    click is stored and the call returns, be the amount non-positive.  Such
    values are kept out by the page before it calls the store: the form does
    not call [create_category] when the name is empty once its white space
    is stripped (a name of no-break spaces, say), leaving the database as it
    is without an exception, and its number inputs hold no value below 1
    for the quota, 0.0 for the unit value and 1 for the quantity.  So every
    category the form stores has a stripped name that is not empty, a quota
    of at least 1 and a unit value of at least 0, and every click the
    buttons store has an amount of at least 1. *)
Theorem create_category_no_validation
    (clk : clock) (db : database)
    (nm : string) (ipp : Z) (uv : Q) (ul : string) :
  ~ In nm (map name (categories db)) ->
  sqlite_integer ipp ->
  rowids_below_max (map cat_id (categories db)) ->
  create_category db nm ipp uv ul
  = (Returned tt,
     mkdb (categories db
             ++ [mkcategory (next_rowid (map cat_id (categories db)))
                   nm ipp uv ul])
       (clicks db))
  /\ (forall (cid : Z) (rs : string) (amt : Q),
        sqlite_integer cid ->
        rowids_below_max (map click_id (clicks db)) ->
        record_click clk db cid rs amt
        = (Returned tt,
           mkdb (categories db)
             (clicks db
                ++ [mkclick (next_rowid (map click_id (clicks db))) cid
                      (datetime_isoformat (utcnow clk)) rs amt])))
  /\ (forall (submitted : bool) (raw : string)
             (qi : int_input 1) (vi : float_input 0) (label : string),
        (strip raw = "" ->
         new_cat db submitted raw qi vi label = (Returned tt, db))
        /\ new_cat db submitted nbsp qi vi label = (Returned tt, db)
        /\ forall row,
             In row (categories (snd (new_cat db submitted raw qi vi label))) ->
             In row (categories db)
             \/ (name row = strip raw /\ name row <> ""
                 /\ 1 <= items_per_period row /\ (0 <= unit_value row)%Q))
  /\ (forall (c : category_row) (rs : string) (custom : int_input 1)
             (click : click_row),
        In click (clicks (snd (plus_one_button clk db c)))
        \/ In click (clicks (snd (custom_button clk db c rs custom))) ->
        In click (clicks db) \/ (1 <= amount click)%Q).
Proof.
  intros Hnew _ _. split; [now apply create_category_fresh|].
  split; [intros; apply record_click_appends|].
  split.
  - intros submitted raw qi vi label.
    split; [apply new_cat_blank|].
    split; [now apply new_cat_blank|]. apply new_cat_rows.
  - intros c rs custom click.
    unfold plus_one_button, custom_button. rewrite !record_click_appends.
    cbn [snd clicks].
    intros [Hin|Hin]; apply in_app_or in Hin as [Hold|[<-|[]]];
      try (now left); right; cbn [amount].
    + unfold Qle. simpl. lia.
    + pose proof (int_min _ custom). unfold Qle, inject_Z. simpl. lia.
Qed.

Lemma create_category_no_validation_witness :
  ~ In " " (map name (categories (snd first_start)))
  /\ sqlite_integer 0
  /\ rowids_below_max (map cat_id (categories (snd first_start)))
  /\ create_category (snd first_start) " " 0 (-1 # 1) "item"
     = (Returned tt,
        mkdb (categories (snd first_start)
                ++ [mkcategory 4 " " 0 (-1 # 1) "item"])
          []).
Proof.
  assert (Hn : ~ In " " (map name (categories (snd first_start)))).
  { simpl. intuition discriminate. }
  assert (Hi : sqlite_integer 0) by (unfold sqlite_integer; lia).
  assert (Hr : rowids_below_max (map cat_id (categories (snd first_start)))).
  { intros i Hi'. vm_compute in Hi'. intuition lia. }
  split; [exact Hn|]. split; [exact Hi|]. split; [exact Hr|].
  exact (proj1 (create_category_no_validation
                  (mkclock (mkdatetime (mkdate 2024 1 15) 12 0 0 0)
                     (mkdate 2024 1 15))
                  (snd first_start) " " 0 (-1 # 1) "item" Hn Hi Hr)).
Defined.

(** C3, as the specification words it, fails: a quota of zero, a negative
    unit value and a name that is blank once stripped are stored by
    [create_category], and an amount of zero is stored by [record_click];
    both calls return without an exception. *)
Lemma invalid_input_is_stored :
  let clk := mkclock (mkdatetime (mkdate 2024 1 15) 12 0 0 0)
               (mkdate 2024 1 15) in
  (0 <= 0 /\ (-1 # 1 < 0)%Q /\ strip " " = "")
  /\ create_category empty_db " " 0 (-1 # 1) "item"
     = (Returned tt, mkdb [mkcategory 1 " " 0 (-1 # 1) "item"] [])
  /\ record_click clk (snd first_start) 1 "faim" 0
     = (Returned tt,
        mkdb (categories (snd first_start))
          [mkclick 1 1 "2024-01-15T12:00:00" "faim" 0]).
Proof.
  repeat split; reflexivity.
Qed.



(** ** Seeding the default categories *)

Section Seeding.

(** The loop never raises.  It keeps the rows it finds, adds rows only
    under names that were free, keeps the clicks and the pragmas, and
    leaves every name of its list in the table. *)
Lemma seed_loop_spec (l : list (string * Z * Q * string)) :
  forall conn : connection,
  exists added : list category_row,
    seed_loop conn l
    = Returned (mkconn (foreign_keys conn)
                  (mkdb (categories (work conn) ++ added)
                     (clicks (work conn))))
    /\ (forall r, In r added ->
          ~ In (name r) (map name (categories (work conn)))
          /\ In (name r) (map default_name l))
    /\ (forall e, In e l ->
          In (default_name e)
            (map name (categories (work conn) ++ added))).
Proof.
  induction l as [|[[[nm ip] uv] ul] rest IH]; intros conn.
  - exists []. simpl. rewrite app_nil_r.
    destruct conn as [fk [cats cls]]. simpl. repeat split; tauto.
  - simpl. unfold insert_category.
    destruct (existsb _ _) eqn:E.
    + destruct (IH conn) as (added & Hrun & Hnew & Hall).
      exists added. split; [exact Hrun|]. split.
      * intros r Hr. destruct (Hnew r Hr). auto.
      * intros e [<-|He]; [|auto]. simpl.
        rewrite map_app. apply in_or_app. left. now apply existsb_name.
    + set (row := mkcategory _ nm ip uv ul).
      destruct (IH (mkconn (foreign_keys conn)
                      (mkdb (categories (work conn) ++ [row])
                         (clicks (work conn)))))
        as (added & Hrun & Hnew & Hall).
      simpl in Hrun, Hnew, Hall. rewrite <- app_assoc in Hrun, Hall.
      exists (row :: added). split; [exact Hrun|]. split.
      * intros r [<-|Hr].
        { simpl. split; [|auto]. intros Hin.
          apply existsb_name in Hin. congruence. }
        { destruct (Hnew r Hr) as [Hfree Hname]. split; [|auto].
          intros Hin. apply Hfree. rewrite map_app.
          apply in_or_app. now left. }
      * intros e [<-|He]; [|auto]. simpl.
        rewrite map_app. apply in_or_app. right. simpl. now left.
Qed.

(** When every name of the list is taken, the loop changes nothing. *)
Lemma seed_loop_skip (l : list (string * Z * Q * string))
    (conn : connection) :
  (forall e, In e l ->
     In (default_name e) (map name (categories (work conn)))) ->
  seed_loop conn l = Returned conn.
Proof.
  induction l as [|[[[nm ip] uv] ul] rest IH]; intros Hall; simpl;
    [reflexivity|].
  unfold insert_category.
  assert (E : existsb (fun r => (name r =? nm)%string)
                (categories (work conn)) = true).
  { apply existsb_name. apply (Hall (nm, ip, uv, ul)). now left. }
  rewrite E. apply IH. intros e He. apply Hall. now right.
Qed.

Lemma seed_loop_well_formed (l : list (string * Z * Q * string)) :
  forall conn conn' : connection,
    well_formed (work conn) -> seed_loop conn l = Returned conn' ->
    well_formed (work conn').
Proof.
  induction l as [|[[[nm ip] uv] ul] rest IH]; intros conn conn' Hwf; simpl.
  - now intros [= <-].
  - destruct (insert_category conn nm ip uv ul) as [c|[k| |]] eqn:E.
    + apply IH. eapply insert_category_well_formed; eauto.
    + now apply IH.
    + discriminate.
    + discriminate.
Qed.

End Seeding.

(** C7. [add_default_categories] never raises.  Run on the database it has
    produced, it changes nothing, so [list_categories] has the same length.
    On any database it keeps the rows it finds and adds rows only under
    names no row had: an insertion whose name is taken is skipped, and when
    the three names are taken nothing is written.  It creates no duplicate
    id or name. *)
Theorem add_default_categories_idempotent (db : database) :
  let db1 := snd (add_default_categories db) in
  fst (add_default_categories db) = Returned tt
  /\ add_default_categories db1 = (Returned tt, db1)
  /\ List.length (list_categories (snd (add_default_categories db1)))
     = List.length (list_categories db1)
  /\ (exists added : list category_row,
        db1 = mkdb (categories db ++ added) (clicks db)
        /\ forall r, In r added ->
             ~ In (name r) (map name (categories db))
             /\ In (name r) (map default_name defaults))
  /\ ((forall e, In e defaults ->
         In (default_name e) (map name (categories db))) ->
      add_default_categories db = (Returned tt, db))
  /\ (well_formed db -> well_formed db1).
Proof.
  unfold add_default_categories, get_conn.
  destruct (seed_loop_spec defaults (connect db))
    as (added & Hrun & Hnew & Hall).
  rewrite Hrun.
  cbn [fst snd commit work connect foreign_keys categories clicks] in *.
  assert (Hagain :
    seed_loop (connect (mkdb (categories db ++ added) (clicks db))) defaults
    = Returned (connect (mkdb (categories db ++ added) (clicks db)))).
  { apply seed_loop_skip. exact Hall. }
  rewrite Hagain. cbn [fst snd commit work connect].
  split; [reflexivity|]. split; [reflexivity|]. split; [reflexivity|].
  split; [exists added; split; [reflexivity|exact Hnew]|].
  split.
  - intros Htaken.
    pose proof (seed_loop_skip defaults (connect db) Htaken) as Hsame.
    rewrite Hrun in Hsame. unfold connect in Hsame.
    injection Hsame as Hsame. now rewrite Hsame.
  - intros Hwf.
    apply (seed_loop_well_formed defaults (connect db) _ Hwf Hrun).
Qed.

(** The statements of the reset (lines 160-163), taken by themselves:
    whatever the file holds, and whether it exists or not, they would leave
    the database of a first start, with the three default categories under
    the ids 1, 2 and 3 and no click.  The script never runs them: they are
    the body of the [if] of line 159, which Python refuses to compile, so
    that what C9 asks of the reset is not met by the script. *)
Lemma reset_statements_then_seed (f : disk) :
  add_default_categories (reset_all f) = first_start
  /\ fst (add_default_categories (reset_all f)) = Returned tt
  /\ list_categories (snd (add_default_categories (reset_all f)))
     = [ mkcategory 1 "Burgers" 3 (16 # 1) "burger";
         mkcategory 2 "Equipement" 3 (60 # 1) "equip";
         mkcategory 3 "Bonbons" 20 (7 # 10) "bonbon" ]
  /\ map (fun r => (name r, items_per_period r, unit_value r, unit_label r))
       (list_categories (snd (add_default_categories (reset_all f))))
     = defaults
  /\ clicks (snd (add_default_categories (reset_all f))) = []
  /\ reset_all f = empty_db.
Proof.
  destruct f; repeat split; reflexivity.
Qed.

(** ** The allowance left in the current period *)

Section Allowance.

Lemma clicks_this_period_default (clk : clock) (db : database) (cid : Z) :
  clicks_this_period clk db cid None None
  = clicks_this_period clk db cid
      (Some (year (today clk))) (Some (month (today clk))).
Proof. reflexivity. Qed.

Lemma summary_loop_spec (clk : clock) (db : database)
    (cats : list category_row) :
  month_in_range (year (today clk)) (month (today clk)) ->
  exists rows : list summary_row,
    summary_loop clk db cats = Returned rows
    /\ Forall2
         (fun c r =>
            s_category r = name c
            /\ s_items_per_period r = items_per_period c
            /\ clicks_this_period clk db (cat_id c) None None
               = Returned (s_used r)
            /\ s_remaining r = Z.max 0 (items_per_period c - s_used r))
         cats rows.
Proof.
  intros Hr. induction cats as [|c rest (rows & Hrun & Hrows)].
  - exists []. split; [reflexivity | constructor].
  - simpl. rewrite clicks_this_period_default.
    rewrite clicks_this_period_count by exact Hr. simpl bind.
    rewrite Hrun. simpl bind. eexists. split; [reflexivity|].
    constructor; [|exact Hrows]. simpl.
    rewrite clicks_this_period_default.
    rewrite clicks_this_period_count by exact Hr.
    repeat split; reflexivity.
Qed.

End Allowance.

(** C8. While the month of [date.today()] is a month of the calendar, the
    table of the page is computed without an exception and has one row per
    category, in the order of [list_categories]: its [used] is the count of
    [clicks_this_period] for the category and its [remaining] is
    [max(0, items_per_period - used)], which is never negative and is zero
    as soon as [used] reaches the quota.  With a quota of 3 and 5 clicks in
    the month the row reads used 5, remaining 0. *)
Theorem remaining_never_negative (clk : clock) (db : database) :
  month_in_range (year (today clk)) (month (today clk)) ->
  (exists rows : list summary_row,
     summary clk db = Returned rows
     /\ Forall2
          (fun c r =>
             s_category r = name c
             /\ s_items_per_period r = items_per_period c
             /\ clicks_this_period clk db (cat_id c) None None
                = Returned (s_used r)
             /\ s_remaining r = Z.max 0 (items_per_period c - s_used r)
             /\ 0 <= s_remaining r
             /\ (items_per_period c <= s_used r -> s_remaining r = 0))
          (list_categories db) rows)
  /\ (forall ipp used : Z,
        remaining ipp used = Z.max 0 (ipp - used) /\ 0 <= remaining ipp used)
  /\ remaining 3 5 = 0
  /\ (let tick := mkclock (mkdatetime (mkdate 2024 1 20) 9 30 0 0)
                   (mkdate 2024 1 20) in
      let five :=
        mkdb [mkcategory 1 "Burgers" 3 (16 # 1) "burger"]
          [mkclick 1 1 "2024-01-02T12:00:00" "faim" 1;
           mkclick 2 1 "2024-01-05T19:30:00.250000" "envie" 1;
           mkclick 3 1 "2024-01-09T12:00:00" "social" 1;
           mkclick 4 1 "2024-01-12T20:15:00" "stress" 1;
           mkclick 5 1 "2024-01-19T13:00:00" "plaisir" 1] in
      summary tick five
      = Returned [mksummary "Burgers" 3 5 0 (16 # 1) "burger"]).
Proof.
  intros Hr. split.
  - destruct (summary_loop_spec clk db (list_categories db) Hr)
      as (rows & Hrun & Hrows).
    exists rows. split; [exact Hrun|].
    eapply Forall2_impl; [|exact Hrows].
    intros c r (Hn & Hq & Hu & Hrem). rewrite Hrem.
    repeat split; auto; lia.
  - split; [intros ipp used; unfold remaining; lia|].
    split; reflexivity.
Qed.

Lemma remaining_never_negative_witness :
  month_in_range 2024 1
  /\ remaining 3 5 = 0.
Proof.
  split.
  - unfold month_in_range, MINYEAR, MAXYEAR. lia.
  - refine (proj1 (proj2 (proj2 (remaining_never_negative
             (mkclock (mkdatetime (mkdate 2024 1 20) 9 30 0 0)
                (mkdate 2024 1 20))
             empty_db _)))).
    unfold month_in_range, MINYEAR, MAXYEAR. simpl. lia.
Defined.

(** C5 (the code departs from it). Without a year and a month,
    [clicks_this_period] counts the month of [date.today()], the date of the
    local time zone, while [record_click] stamps the clicks with
    [datetime.utcnow()].  In a process two hours ahead of UTC, at
    22:30 UTC on 31 January 2024 the local date is 1 February: the click
    recorded at that instant belongs to January in UTC, and the default
    period, February, does not count it. *)
Theorem clicks_this_period_default_is_local
    (clk : clock) (db : database) (cid : Z) :
  clicks_this_period clk db cid None None
  = clicks_this_period clk db cid
      (Some (year (today clk))) (Some (month (today clk)))
  /\ (let tick := mkclock (mkdatetime (mkdate 2024 1 31) 22 30 0 0)
                   (mkdate 2024 2 1) in
      let db' := snd (record_click tick (snd first_start) 1 "faim" 1) in
      clicks db' = [mkclick 1 1 "2024-01-31T22:30:00" "faim" 1]
      /\ clicks_this_period tick db' 1 None None = Returned 0
      /\ clicks_this_period tick db' 1
           (Some (year (dt_date (utcnow tick))))
           (Some (month (dt_date (utcnow tick)))) = Returned 1).
Proof.
  split; [reflexivity|]. repeat split; reflexivity.
Qed.

(** * Further properties of the helpers *)

(** ** Undoing what was recorded *)

Section UndoRecord.

Lemma max_rowid_last (ids : list Z) (x : Z) :
  (forall i, In i ids -> i <= x) -> max_rowid (ids ++ [x]) = Some x.
Proof.
  induction ids as [|i rest IH]; intros Hle; simpl; [reflexivity|].
  rewrite IH by (intros j Hj; apply Hle; now right).
  f_equal. apply Z.max_r. apply Hle. now left.
Qed.

Lemma below_next_rowid (ids : list Z) (i : Z) :
  In i ids -> i < next_rowid ids.
Proof.
  intros Hin. unfold next_rowid.
  destruct (max_rowid ids) as [m|] eqn:E.
  - pose proof (max_rowid_upper ids m E i Hin). lia.
  - apply max_rowid_none in E. subst ids. contradiction.
Qed.

Lemma delete_appended (rows : list click_row) (r : click_row) :
  ~ In (click_id r) (map click_id rows) ->
  filter (fun x => negb (click_id x =? click_id r)) (rows ++ [r]) = rows.
Proof.
  intros Hfresh. rewrite filter_app. simpl. rewrite Z.eqb_refl. simpl.
  rewrite app_nil_r. apply forallb_filter_id, forallb_forall.
  intros x Hx. apply negb_true_iff, Z.eqb_neq. intros He.
  apply Hfresh. rewrite <- He. now apply in_map.
Qed.

Lemma undo_last_click_length (db : database) :
  well_formed db ->
  List.length (clicks (snd (undo_last_click db)))
  = pred (List.length (clicks db)).
Proof.
  intros [_ _ Hk]. unfold undo_last_click, select_last_click_id. simpl.
  destruct (max_rowid (map click_id (clicks db))) as [m|] eqn:E; simpl.
  - apply max_rowid_in, in_map_iff in E as (r & <- & Hr).
    now rewrite <- (delete_one (clicks db) r Hk Hr).
  - apply max_rowid_none, map_eq_nil in E. now rewrite E.
Qed.

End UndoRecord.

(** X1. A click that has just been recorded is the one [undo_last_click]
    removes: for a category id that SQLite can store, existing or not, and
    a table of clicks whose ids are below the largest one, recording and
    then undoing gives back the database. *)
Theorem record_then_undo
    (clk : clock) (db : database) (cid : Z) (rs : string) (amt : Q) :
  sqlite_integer cid ->
  rowids_below_max (map click_id (clicks db)) ->
  undo_last_click (snd (record_click clk db cid rs amt)) = (Returned tt, db).
Proof.
  intros _ _. rewrite record_click_appends.
  unfold undo_last_click, select_last_click_id.
  cbn [snd get_conn connect work clicks categories].
  set (r := mkclick (next_rowid (map click_id (clicks db))) cid
              (datetime_isoformat (utcnow clk)) rs amt).
  rewrite map_app. change (map click_id [r]) with [click_id r].
  rewrite max_rowid_last
    by (intros i Hi; apply below_next_rowid in Hi; simpl; lia).
  unfold delete_click, commit, get_conn, connect.
  cbn [work clicks categories foreign_keys].
  rewrite delete_appended by apply next_rowid_fresh.
  now destruct db.
Qed.

Lemma record_then_undo_witness :
  sqlite_integer 99
  /\ rowids_below_max
       (map click_id
          (clicks (mkdb [mkcategory 1 "Burgers" 3 16 "burger"]
                     [mkclick 1 1 "2024-01-15T12:00:00" "faim" 1;
                      mkclick 2 1 "2024-01-16T12:00:00" "envie" 1])))
  /\ undo_last_click
       (snd (record_click
               (mkclock (mkdatetime (mkdate 2024 1 17) 12 0 0 0)
                  (mkdate 2024 1 17))
               (mkdb [mkcategory 1 "Burgers" 3 16 "burger"]
                  [mkclick 1 1 "2024-01-15T12:00:00" "faim" 1;
                   mkclick 2 1 "2024-01-16T12:00:00" "envie" 1])
               99 "stress" 2))
     = (Returned tt,
        mkdb [mkcategory 1 "Burgers" 3 16 "burger"]
          [mkclick 1 1 "2024-01-15T12:00:00" "faim" 1;
           mkclick 2 1 "2024-01-16T12:00:00" "envie" 1]).
Proof.
  assert (Hi : sqlite_integer 99) by (unfold sqlite_integer; lia).
  assert (Hr : rowids_below_max
                 (map click_id
                    (clicks (mkdb [mkcategory 1 "Burgers" 3 16 "burger"]
                       [mkclick 1 1 "2024-01-15T12:00:00" "faim" 1;
                        mkclick 2 1 "2024-01-16T12:00:00" "envie" 1])))).
  { intros i Hi'. simpl in Hi'. intuition lia. }
  split; [exact Hi|]. split; [exact Hr|].
  exact (record_then_undo _ _ 99 "stress" 2 Hi Hr).
Defined.

(** X2. On a database with unique ids, [n] calls of [undo_last_click] remove
    [n] clicks, or all of them when there are fewer, and never a
    category. *)
Theorem undo_times_length (n : nat) (db : database) :
  well_formed db ->
  List.length (clicks (undo_times n db)) = (List.length (clicks db) - n)%nat
  /\ categories (undo_times n db) = categories db
  /\ (List.length (clicks db) <= n -> clicks (undo_times n db) = [])%nat.
Proof.
  revert db; induction n as [|n IH]; intros db Hwf.
  - simpl. split; [lia|]. split; [reflexivity|].
    intros Hle. destruct (clicks db); [reflexivity | simpl in Hle; lia].
  - simpl.
    destruct (IH _ (undo_last_click_well_formed db Hwf))
      as (Hlen & Hcat & Hnil).
    rewrite undo_last_click_length in Hlen, Hnil by exact Hwf.
    split; [lia|]. split.
    + rewrite Hcat. unfold undo_last_click.
      now destruct (select_last_click_id (get_conn db)).
    + intros Hle. apply Hnil. lia.
Qed.

Lemma undo_times_length_witness :
  well_formed (snd (record_click
                      (mkclock (mkdatetime (mkdate 2024 1 15) 12 0 0 0)
                         (mkdate 2024 1 15))
                      (snd first_start) 1 "faim" 1))
  /\ clicks (undo_times 2
              (snd (record_click
                      (mkclock (mkdatetime (mkdate 2024 1 15) 12 0 0 0)
                         (mkdate 2024 1 15))
                      (snd first_start) 1 "faim" 1))) = [].
Proof.
  assert (H : well_formed
                (snd (record_click
                        (mkclock (mkdatetime (mkdate 2024 1 15) 12 0 0 0)
                           (mkdate 2024 1 15))
                        (snd first_start) 1 "faim" 1))).
  { constructor; simpl; repeat constructor; simpl; intuition discriminate. }
  split; [exact H|].
  apply (proj2 (proj2 (undo_times_length 2 _ H))). simpl. lia.
Defined.

(** X3. Every helper that writes keeps the ids of both tables and the names
    of the categories distinct, and the reset produces such a database. *)
Theorem helpers_keep_well_formed
    (clk : clock) (db : database) (f : disk)
    (nm : string) (ipp : Z) (uv : Q) (ul : string)
    (cid : Z) (rs : string) (amt : Q) (submitted : bool) :
  well_formed db ->
  well_formed (snd (create_category db nm ipp uv ul))
  /\ well_formed (snd (new_cat_form db submitted nm ipp uv ul))
  /\ well_formed (snd (record_click clk db cid rs amt))
  /\ well_formed (snd (undo_last_click db))
  /\ well_formed (snd (add_default_categories db))
  /\ well_formed (snd (add_default_categories (reset_all f)))
  /\ well_formed (init_db None).
Proof.
  intros Hwf.
  assert (Hseed : forall d, well_formed d ->
                    well_formed (snd (add_default_categories d))).
  { intros d Hd. unfold add_default_categories.
    destruct (seed_loop (get_conn d) defaults) as [conn'|e] eqn:E;
      simpl; [|exact Hd].
    exact (seed_loop_well_formed defaults (get_conn d) conn' Hd E). }
  split; [now apply create_category_well_formed|].
  split.
  { unfold new_cat_form. destruct (submitted && truthy (strip nm));
      [now apply create_category_well_formed | exact Hwf]. }
  split; [now apply record_click_well_formed|].
  split; [now apply undo_last_click_well_formed|].
  split; [now apply Hseed|].
  split; [|apply empty_db_well_formed].
  apply Hseed. destruct f; apply empty_db_well_formed.
Qed.

Lemma helpers_keep_well_formed_witness :
  well_formed empty_db
  /\ well_formed (snd (add_default_categories empty_db)).
Proof.
  split; [apply empty_db_well_formed|].
  apply (helpers_keep_well_formed
           (mkclock (mkdatetime (mkdate 2024 1 15) 12 0 0 0) (mkdate 2024 1 15))
           empty_db None "Livres" 2 (12 # 1) "livre" 1 "envie" 1 true
           empty_db_well_formed).
Defined.

(** ** Counting by period *)

Section Counting.

Lemma date_new_first_raises (y m : Z) :
  ~ (MINYEAR <= y <= MAXYEAR /\ 1 <= m <= 12) ->
  date_new y m 1
  = Raised (if c_int y && c_int m then ValueError else OverflowError).
Proof.
  unfold date_new, MINYEAR, MAXYEAR. intros Hout.
  change (c_int 1) with true. rewrite andb_true_r.
  destruct (c_int y && c_int m); [|reflexivity]. cbn [negb].
  destruct (Z.leb_spec 1 y), (Z.leb_spec y 9999),
    (Z.leb_spec 1 m), (Z.leb_spec m 12); simpl; try reflexivity.
  exfalso. apply Hout. lia.
Qed.

Lemma count_clicks_bounds (conn : connection) (cid : Z) (start stop : string) :
  0 <= count_clicks conn cid start stop
    <= Z.of_nat (List.length (clicks (work conn))).
Proof.
  unfold count_clicks.
  pose proof (filter_length_le (in_period cid start stop) (clicks (work conn))).
  lia.
Qed.



End Counting.

(** X4. For a category id that SQLite can store and a year and a month,
    [clicks_this_period] returns exactly when both bounds of the period are
    dates, with a count between zero and the number of clicks of the table.
    Otherwise it raises: [OverflowError] when the year or the month does not
    fit a C [int], and [ValueError] when they do but the year is outside
    1..9999, the month outside 1..12, or the month is December 9999. *)
Theorem clicks_this_period_outcome
    (clk : clock) (db : database) (cid y m : Z) :
  sqlite_integer cid ->
  (month_in_range y m ->
   exists n : Z,
     clicks_this_period clk db cid (Some y) (Some m) = Returned n
     /\ 0 <= n <= Z.of_nat (List.length (clicks db)))
  /\ (~ month_in_range y m ->
      clicks_this_period clk db cid (Some y) (Some m)
      = Raised (if c_int y && c_int m then ValueError else OverflowError)).
Proof.
  intros _. split.
  - intros Hr. eexists. split; [now apply clicks_this_period_count|].
    apply (count_clicks_bounds (get_conn db)).
  - intros Hout. unfold clicks_this_period.
    destruct (Z.le_gt_cases MINYEAR y), (Z.le_gt_cases y MAXYEAR),
      (Z.le_gt_cases 1 m), (Z.le_gt_cases m 12);
      try (rewrite date_new_first_raises by lia; reflexivity).
    rewrite date_new_first by lia. simpl bind.
    assert (m = 12 /\ y = MAXYEAR) as [-> ->].
    { unfold month_in_range in Hout. lia. }
    reflexivity.
Qed.

Lemma clicks_this_period_outcome_witness :
  sqlite_integer 1
  /\ clicks_this_period
       (mkclock (mkdatetime (mkdate 2024 1 15) 12 0 0 0) (mkdate 2024 1 15))
       (snd first_start) 1 (Some 2147483648) (Some 1)
     = Raised OverflowError
  /\ clicks_this_period
       (mkclock (mkdatetime (mkdate 2024 1 15) 12 0 0 0) (mkdate 2024 1 15))
       (snd first_start) 1 (Some 2024) (Some 13)
     = Raised ValueError.
Proof.
  assert (H : sqlite_integer 1) by (unfold sqlite_integer; lia).
  split; [exact H|]. split.
  - apply (proj2 (clicks_this_period_outcome
                    (mkclock (mkdatetime (mkdate 2024 1 15) 12 0 0 0)
                       (mkdate 2024 1 15))
                    (snd first_start) 1 2147483648 1 H)).
    unfold month_in_range, MINYEAR, MAXYEAR. lia.
  - apply (proj2 (clicks_this_period_outcome
                    (mkclock (mkdatetime (mkdate 2024 1 15) 12 0 0 0)
                       (mkdate 2024 1 15))
                    (snd first_start) 1 2024 13 H)).
    unfold month_in_range, MINYEAR, MAXYEAR. lia.
Defined.

(** X5. A click recorded for one category changes the count of no other
    category, for any period, the default one included. *)
Theorem record_click_other_category
    (clk tick : clock) (db : database) (cid cid' : Z) (rs : string) (amt : Q)
    (year month : option Z) :
  cid <> cid' ->
  clicks_this_period clk (snd (record_click tick db cid rs amt)) cid' year month
  = clicks_this_period clk db cid' year month.
Proof.
  intros Hne. rewrite record_click_appends. unfold clicks_this_period.
  destruct (match year, month with
            | Some y, Some m => (y, m)
            | _, _ => (Datetime.year (today clk), Datetime.month (today clk))
            end) as [y m].
  destruct (date_new y m 1) as [start|e]; [|reflexivity]. simpl bind.
  destruct (first_of_next_month y m) as [stop|e]; [|reflexivity]. simpl bind.
  cbn [snd]. rewrite count_clicks_insert. unfold in_period.
  cbn [category_id]. destruct (Z.eqb_spec cid cid'); [contradiction|].
  simpl. now rewrite Z.add_0_r.
Qed.

Lemma record_click_other_category_witness :
  1 <> 2
  /\ clicks_this_period
       (mkclock (mkdatetime (mkdate 2024 1 15) 12 0 0 0) (mkdate 2024 1 15))
       (snd (record_click
               (mkclock (mkdatetime (mkdate 2024 1 15) 12 0 0 0)
                  (mkdate 2024 1 15))
               (snd first_start) 1 "faim" 1))
       2 None None
     = Returned 0.
Proof.
  split; [lia|].
  rewrite (record_click_other_category _ _ _ 1 2); [reflexivity | lia].
Defined.





(** ** Listing the categories *)

Section Listing.

Lemma insert_by_id_all (r : category_row) (l : list category_row) :
  Permutation (insert_by_id r l) (r :: l).
Proof.
  induction l as [|x l IH]; simpl; [reflexivity|].
  destruct (cat_id r <? cat_id x); [reflexivity|].
  rewrite IH. apply perm_swap.
Qed.

Lemma insert_by_id_head (x r : category_row) (l : list category_row) :
  HdRel by_id x l -> by_id x r -> HdRel by_id x (insert_by_id r l).
Proof.
  intros Hl Hr. destruct l as [|y l]; simpl; [now constructor|].
  destruct (cat_id r <? cat_id y); constructor; auto.
  now inversion Hl.
Qed.

Lemma insert_by_id_sorted (r : category_row) (l : list category_row) :
  Sorted by_id l -> Sorted by_id (insert_by_id r l).
Proof.
  induction 1 as [|x l Hs IH Hhd]; simpl; [repeat constructor|].
  destruct (Z.ltb_spec (cat_id r) (cat_id x)).
  - repeat constructor; auto. unfold by_id. lia.
  - constructor; [exact IH|]. now apply insert_by_id_head.
Qed.

Lemma order_by_id_all (l : list category_row) :
  Permutation (order_by_id l) l.
Proof.
  induction l as [|r l IH]; simpl; [reflexivity|].
  now rewrite insert_by_id_all, IH.
Qed.

Lemma order_by_id_sorted (l : list category_row) : Sorted by_id (order_by_id l).
Proof.
  induction l as [|r l IH]; simpl; [constructor|].
  now apply insert_by_id_sorted.
Qed.

Lemma named_rows_permuted (nm : string) (l l' : list category_row) :
  Permutation l l' ->
  Permutation (filter (fun r => (name r =? nm)%string) l)
    (filter (fun r => (name r =? nm)%string) l').
Proof.
  induction 1 as [|x l l' _ IH|x y l|l l' l'' _ IH1 _ IH2]; simpl.
  - constructor.
  - destruct (name x =? nm)%string; auto.
  - destruct (name x =? nm)%string, (name y =? nm)%string;
      auto using perm_swap.
  - now rewrite IH1.
Qed.

Lemma no_row_named (nm : string) (l : list category_row) :
  ~ In nm (map name l) -> filter (fun r => (name r =? nm)%string) l = [].
Proof.
  induction l as [|x l IH]; simpl; intros Hnew; [reflexivity|].
  destruct (String.eqb_spec (name x) nm) as [He|_]; [tauto|].
  apply IH. tauto.
Qed.

End Listing.

(** X8. [list_categories] returns the rows of the table, each as often as
    the table has it, by ascending id. *)
Theorem list_categories_sorted (db : database) :
  Sorted (fun a b => cat_id a <= cat_id b) (list_categories db)
  /\ Permutation (list_categories db) (categories db)
  /\ (forall r, In r (list_categories db) <-> In r (categories db))
  /\ List.length (list_categories db) = List.length (categories db).
Proof.
  unfold list_categories, select_categories. simpl.
  pose proof (order_by_id_all (categories db)) as Hp.
  split; [apply order_by_id_sorted|]. split; [exact Hp|]. split.
  - intros r. split; apply Permutation_in; [exact Hp | now symmetry].
  - now apply Permutation_length.
Qed.

(** X9. After [create_category] with a name no category has, a quota that
    SQLite can store and category ids below the largest one, the call has
    returned, [list_categories] has one row more, exactly one of its rows
    has the name, with the attributes given, and every row it had before
    is still there. *)
Theorem create_category_listed
    (db : database) (nm : string) (ipp : Z) (uv : Q) (ul : string) :
  ~ In nm (map name (categories db)) ->
  sqlite_integer ipp ->
  rowids_below_max (map cat_id (categories db)) ->
  let db' := snd (create_category db nm ipp uv ul) in
  fst (create_category db nm ipp uv ul) = Returned tt
  /\ filter (fun r => (name r =? nm)%string) (list_categories db')
     = [mkcategory (next_rowid (map cat_id (categories db))) nm ipp uv ul]
  /\ List.length (list_categories db') = S (List.length (list_categories db))
  /\ (forall r, In r (list_categories db) -> In r (list_categories db'))
  /\ clicks db' = clicks db.
Proof.
  intros Hnew _ _. rewrite (create_category_fresh db nm ipp uv ul Hnew).
  cbn [fst snd]. set (row := mkcategory _ nm ipp uv ul).
  split; [reflexivity|].
  unfold list_categories, select_categories, get_conn, connect.
  cbn [work categories clicks].
  pose proof (order_by_id_all (categories db ++ [row])) as Hp.
  split.
  - apply Permutation_length_1_inv. symmetry.
    etransitivity; [apply (named_rows_permuted nm _ _ Hp)|].
    rewrite filter_app. simpl. rewrite String.eqb_refl.
    now rewrite (no_row_named nm (categories db) Hnew).
  - split.
    + rewrite (Permutation_length Hp), length_app.
      rewrite (Permutation_length (order_by_id_all (categories db))).
      simpl. lia.
    + split; [|reflexivity]. intros r Hr.
      apply (Permutation_in r (Permutation_sym Hp)).
      apply in_or_app. left.
      now apply (Permutation_in r (order_by_id_all (categories db))).
Qed.

Lemma create_category_listed_witness :
  ~ In "Livres" (map name (categories (snd first_start)))
  /\ sqlite_integer 2
  /\ rowids_below_max (map cat_id (categories (snd first_start)))
  /\ filter (fun r => (name r =? "Livres")%string)
       (list_categories
          (snd (create_category (snd first_start) "Livres" 2 (12 # 1)
                  "livre")))
     = [mkcategory 4 "Livres" 2 (12 # 1) "livre"].
Proof.
  assert (H : ~ In "Livres" (map name (categories (snd first_start)))).
  { simpl. intuition discriminate. }
  assert (Hi : sqlite_integer 2) by (unfold sqlite_integer; lia).
  assert (Hr : rowids_below_max (map cat_id (categories (snd first_start)))).
  { intros i Hi'. vm_compute in Hi'. intuition lia. }
  split; [exact H|]. split; [exact Hi|]. split; [exact Hr|].
  exact (proj1 (proj2 (create_category_listed (snd first_start) "Livres" 2
                         (12 # 1) "livre" H Hi Hr))).
Defined.

(** ** The history *)

Section History.

Lemma get_clicks_dataframe_rows (db : database) :
  get_clicks_dataframe db
  = order_by_id_desc (flat_map (join_click (categories db)) (clicks db)).
Proof.
  unfold get_clicks_dataframe, select_history, get_conn, connect. simpl.
  now destruct (order_by_id_desc _).
Qed.

Lemma insert_by_id_desc_all (r : history_row) (l : list history_row) :
  Permutation (insert_by_id_desc r l) (r :: l).
Proof.
  induction l as [|x l IH]; simpl; [reflexivity|].
  destruct (h_id x <? h_id r); [reflexivity|].
  rewrite IH. apply perm_swap.
Qed.

Lemma order_by_id_desc_all (l : list history_row) :
  Permutation (order_by_id_desc l) l.
Proof.
  induction l as [|r l IH]; simpl; [reflexivity|].
  now rewrite insert_by_id_desc_all, IH.
Qed.

Lemma insert_by_id_desc_sorted (r : history_row) (l : list history_row) :
  Sorted newest_first l -> Sorted newest_first (insert_by_id_desc r l).
Proof.
  induction 1 as [|x l Hs IH Hhd]; simpl; [repeat constructor|].
  destruct (Z.ltb_spec (h_id x) (h_id r)) as [Hlt|Hge].
  - repeat constructor; auto. unfold newest_first. lia.
  - constructor; [exact IH|].
    destruct l as [|y l]; simpl; [now constructor|].
    destruct (h_id y <? h_id r); constructor; auto. now inversion Hhd.
Qed.

Lemma order_by_id_desc_sorted (l : list history_row) :
  Sorted newest_first (order_by_id_desc l).
Proof.
  induction l as [|r l IH]; simpl; [constructor|].
  now apply insert_by_id_desc_sorted.
Qed.


Lemma in_join_click (cats : list category_row) (c : click_row)
    (row : history_row) :
  In row (join_click cats c)
  <-> exists cat, In cat cats /\ category_id c = cat_id cat
        /\ row = mkhistory (click_id c) (name cat) (ts c) (reason c) (amount c).
Proof.
  unfold join_click. rewrite in_map_iff. split.
  - intros (cat & <- & Hin). apply filter_In in Hin as [Hin He].
    apply Z.eqb_eq in He. eauto.
  - intros (cat & Hin & He & ->). exists cat. split; [reflexivity|].
    apply filter_In. split; [exact Hin | now apply Z.eqb_eq].
Qed.

Lemma no_category_with_id (cats : list category_row) (i : Z) :
  ~ In i (map cat_id cats) -> filter (fun cat => i =? cat_id cat) cats = [].
Proof.
  induction cats as [|x cats IH]; simpl; intros Hout; [reflexivity|].
  destruct (Z.eqb_spec i (cat_id x)) as [He|_].
  - exfalso. apply Hout. left. now symmetry.
  - apply IH. tauto.
Qed.

Lemma join_click_one (cats : list category_row) (cat : category_row)
    (c : click_row) :
  NoDup (map cat_id cats) -> In cat cats -> category_id c = cat_id cat ->
  join_click cats c
  = [mkhistory (click_id c) (name cat) (ts c) (reason c) (amount c)].
Proof.
  intros Hnd Hin He. unfold join_click. rewrite He. clear He.
  induction cats as [|x cats IH]; simpl in *; [contradiction|].
  apply NoDup_cons_iff in Hnd as [Hfresh Hnd].
  destruct Hin as [->|Hin].
  - rewrite Z.eqb_refl. simpl. f_equal.
    now rewrite (no_category_with_id cats (cat_id cat) Hfresh).
  - destruct (Z.eqb_spec (cat_id cat) (cat_id x)) as [He|_]; [|now apply IH].
    exfalso. apply Hfresh. rewrite <- He. now apply in_map.
Qed.



Lemma flat_map_singletons {A B : Type} (f : A -> list B) (l : list A) :
  (forall x, In x l -> List.length (f x) = 1%nat) ->
  List.length (flat_map f l) = List.length l.
Proof.
  induction l as [|a l IH]; intros Hone; simpl; [reflexivity|].
  rewrite length_app, (Hone a) by now left.
  rewrite IH by (intros x Hx; apply Hone; now right). reflexivity.
Qed.

End History.

(** X10. The history lists the clicks by descending id, newest first, and
    its rows are exactly the pairs of a click and the category whose id the
    click names, under the name of that category. *)
Theorem history_rows (db : database) :
  Sorted (fun a b => h_id b <= h_id a) (get_clicks_dataframe db)
  /\ forall row : history_row,
       In row (get_clicks_dataframe db)
       <-> exists c cat,
             In c (clicks db) /\ In cat (categories db)
             /\ category_id c = cat_id cat
             /\ row = mkhistory (click_id c) (name cat) (ts c) (reason c)
                        (amount c).
Proof.
  rewrite get_clicks_dataframe_rows. split; [apply order_by_id_desc_sorted|].
  intros row.
  pose proof (order_by_id_desc_all
                (flat_map (join_click (categories db)) (clicks db))) as Hp.
  split.
  - intros Hin. apply (Permutation_in row Hp) in Hin.
    apply in_flat_map in Hin as (c & Hc & Hrow).
    apply in_join_click in Hrow as (cat & Hcat & He & ->). eauto 6.
  - intros (c & cat & Hc & Hcat & He & ->).
    apply (Permutation_in _ (Permutation_sym Hp)).
    apply in_flat_map. exists c. split; [exact Hc|].
    apply in_join_click. eauto.
Qed.





Section HistoryIds.

(** With unique category ids and every click attached to a category, the
    ids of the history are the ids of the clicks. *)
Lemma history_ids (db : database) :
  NoDup (map cat_id (categories db)) -> referential db ->
  Permutation (map h_id (get_clicks_dataframe db)) (map click_id (clicks db)).
Proof.
  intros Hc Href. rewrite get_clicks_dataframe_rows.
  assert (Hids : map h_id (flat_map (join_click (categories db)) (clicks db))
                 = map click_id (clicks db)).
  { unfold referential in Href.
    induction (clicks db) as [|c cls IH]; simpl; [reflexivity|].
    rewrite map_app, IH by (intros x Hx; apply Href; now right).
    destruct (proj1 (in_map_iff _ _ _) (Href c (or_introl eq_refl)))
      as (cat & He & Hcat).
    now rewrite (join_click_one (categories db) cat c Hc Hcat (eq_sym He)). }
  rewrite <- Hids. apply Permutation_map, order_by_id_desc_all.
Qed.

End HistoryIds.

(** X13. When the ids are unique and every click names a category of the
    table, the history has one row per click, with the ids of the clicks,
    and the data frame is empty exactly when there is no click. *)
Theorem history_complete (db : database) :
  well_formed db -> referential db ->
  Permutation (map h_id (get_clicks_dataframe db)) (map click_id (clicks db))
  /\ List.length (get_clicks_dataframe db) = List.length (clicks db)
  /\ (df_empty (get_clicks_dataframe db) = true <-> clicks db = []).
Proof.
  intros [Hc _ _] Href. pose proof (history_ids db Hc Href) as Hp.
  split; [exact Hp|].
  apply Permutation_length in Hp. rewrite !length_map in Hp.
  split; [exact Hp|].
  destruct (get_clicks_dataframe db), (clicks db); simpl in *;
    split; congruence.
Qed.

Lemma history_complete_witness :
  well_formed (mkdb [mkcategory 1 "Burgers" 3 16 "burger";
                     mkcategory 2 "Bonbons" 20 (7 # 10) "bonbon"]
                 [mkclick 1 2 "2024-01-15T12:00:00" "envie" 1;
                  mkclick 2 1 "2024-01-16T12:00:00" "faim" 1;
                  mkclick 3 2 "2024-01-16T18:30:00" "plaisir" 4])
  /\ referential (mkdb [mkcategory 1 "Burgers" 3 16 "burger";
                        mkcategory 2 "Bonbons" 20 (7 # 10) "bonbon"]
                    [mkclick 1 2 "2024-01-15T12:00:00" "envie" 1;
                     mkclick 2 1 "2024-01-16T12:00:00" "faim" 1;
                     mkclick 3 2 "2024-01-16T18:30:00" "plaisir" 4])
  /\ List.length
       (get_clicks_dataframe
          (mkdb [mkcategory 1 "Burgers" 3 16 "burger";
                 mkcategory 2 "Bonbons" 20 (7 # 10) "bonbon"]
             [mkclick 1 2 "2024-01-15T12:00:00" "envie" 1;
              mkclick 2 1 "2024-01-16T12:00:00" "faim" 1;
              mkclick 3 2 "2024-01-16T18:30:00" "plaisir" 4]))
     = 3%nat.
Proof.
  assert (Hwf : well_formed
                  (mkdb [mkcategory 1 "Burgers" 3 16 "burger";
                         mkcategory 2 "Bonbons" 20 (7 # 10) "bonbon"]
                     [mkclick 1 2 "2024-01-15T12:00:00" "envie" 1;
                      mkclick 2 1 "2024-01-16T12:00:00" "faim" 1;
                      mkclick 3 2 "2024-01-16T18:30:00" "plaisir" 4])).
  { constructor; simpl; repeat constructor; simpl; intuition discriminate. }
  assert (Href : referential
                   (mkdb [mkcategory 1 "Burgers" 3 16 "burger";
                          mkcategory 2 "Bonbons" 20 (7 # 10) "bonbon"]
                      [mkclick 1 2 "2024-01-15T12:00:00" "envie" 1;
                       mkclick 2 1 "2024-01-16T12:00:00" "faim" 1;
                       mkclick 3 2 "2024-01-16T18:30:00" "plaisir" 4])).
  { intros c [<-|[<-|[<-|[]]]]; simpl; tauto. }
  split; [exact Hwf|]. split; [exact Href|].
  exact (proj1 (proj2 (history_complete _ Hwf Href))).
Defined.

(** ** Clicks and their categories *)

Section Referential.

Lemma referential_step (db db' : database) :
  referential db ->
  (forall i, In i (map cat_id (categories db)) ->
             In i (map cat_id (categories db'))) ->
  (forall c, In c (clicks db') ->
             In c (clicks db)
             \/ In (category_id c) (map cat_id (categories db))) ->
  referential db'.
Proof.
  intros Href Hcats Hcls c Hc. apply Hcats.
  destruct (Hcls c Hc) as [Hold|Hnew]; [now apply Href | exact Hnew].
Qed.

Lemma referential_more_categories (db : database)
    (added : list category_row) :
  referential db -> referential (mkdb (categories db ++ added) (clicks db)).
Proof.
  intros Href. apply (referential_step db); auto.
  intros i Hi. simpl. rewrite map_app. apply in_or_app. now left.
Qed.

End Referential.

(** X14. The helpers keep every click attached to a category of the table,
    as long as [record_click] is given the id of a category, which is what
    the buttons of the page do: they take it from [list_categories]. *)
Theorem referential_kept
    (clk : clock) (db : database)
    (nm : string) (ipp : Z) (uv : Q) (ul : string) (rs : string) (amt : Q) :
  referential db ->
  referential (snd (create_category db nm ipp uv ul))
  /\ referential (snd (undo_last_click db))
  /\ referential (snd (add_default_categories db))
  /\ (forall cat, In cat (list_categories db) ->
        referential (snd (record_click clk db (cat_id cat) rs amt))).
Proof.
  intros Href. split.
  { unfold create_category, insert_category, get_conn, connect. simpl.
    destruct (existsb _ _); simpl; [exact Href|].
    now apply referential_more_categories. }
  split.
  { unfold undo_last_click.
    destruct (select_last_click_id (get_conn db)); simpl; [|exact Href].
    apply (referential_step db); auto.
    intros c Hc. left. simpl in Hc. now apply filter_In in Hc. }
  split.
  { unfold add_default_categories, get_conn.
    destruct (seed_loop_spec defaults (connect db)) as (added & -> & _).
    simpl. now apply referential_more_categories. }
  intros cat Hcat. rewrite record_click_appends. simpl.
  apply (referential_step db); auto. simpl. intros c Hc.
  apply in_app_or in Hc as [Hc|[<-|[]]]; [now left|]. right. simpl.
  apply in_map.
  apply (Permutation_in cat (order_by_id_all (categories db))). exact Hcat.
Qed.

Lemma referential_kept_witness :
  referential (snd first_start)
  /\ referential
       (snd (record_click
               (mkclock (mkdatetime (mkdate 2024 1 15) 12 0 0 0)
                  (mkdate 2024 1 15))
               (snd first_start) 1 "faim" 1)).
Proof.
  assert (Href : referential (snd first_start)).
  { intros c Hc. simpl in Hc. contradiction. }
  split; [exact Href|].
  apply (proj2 (proj2 (proj2
           (referential_kept
              (mkclock (mkdatetime (mkdate 2024 1 15) 12 0 0 0)
                 (mkdate 2024 1 15))
              (snd first_start) "Livres" 2 (12 # 1) "livre" "faim" 1 Href)))
           (mkcategory 1 "Burgers" 3 (16 # 1) "burger")).
  simpl. tauto.
Defined.

(** ** The form that creates a category *)

Section Form.

Lemma truthy_true (s : string) : truthy s = true <-> s <> "".
Proof. destruct s; simpl; split; congruence. Qed.

Lemma label_not_empty (ul : string) :
  (if truthy (strip ul) then strip ul else "item") <> "".
Proof.
  destruct (truthy (strip ul)) eqn:E; [now apply truthy_true | discriminate].
Qed.

End Form.

(** X15. The form of the sidebar, with a quota that SQLite can store and
    category ids below the largest one.  Not submitted, or with a name that
    is empty once its white space is stripped (a name of no-break spaces,
    say), it does nothing.  Submitted with a stripped name that a category
    has, it raises the [IntegrityError] of the name and changes nothing.
    Otherwise it returns and has added one category at the end of the
    table: its name is the stripped name, its quota and unit value are those
    of the inputs, hence at least 1 and at least 0, and its label is the
    stripped label, or ["item"] when that is empty.  The clicks are never
    touched. *)
Theorem new_cat_form_outcome
    (db : database) (submitted : bool)
    (nm : string) (ipp : int_input 1) (uv : float_input 0) (ul : string) :
  sqlite_integer (int_value ipp) ->
  rowids_below_max (map cat_id (categories db)) ->
  let out := new_cat db submitted nm ipp uv ul in
  let label := if truthy (strip ul) then strip ul else "item" in
  (submitted = false \/ strip nm = "" -> out = (Returned tt, db))
  /\ (submitted = true -> strip nm <> "" ->
      In (strip nm) (map name (categories db)) ->
      out = (Raised (IntegrityError UNIQUE_categories_name), db))
  /\ (submitted = true -> strip nm <> "" ->
      ~ In (strip nm) (map name (categories db)) ->
      out = (Returned tt,
             mkdb (categories db
                     ++ [mkcategory (next_rowid (map cat_id (categories db)))
                           (strip nm) (int_value ipp) (float_value uv) label])
               (clicks db)))
  /\ clicks (snd out) = clicks db
  /\ (forall row, In row (categories (snd out)) ->
        In row (categories db)
        \/ (name row = strip nm /\ name row <> ""
            /\ 1 <= items_per_period row /\ (0 <= unit_value row)%Q
            /\ unit_label row = label /\ unit_label row <> ""))
  /\ new_cat db true nbsp ipp uv ul = (Returned tt, db).
Proof.
  intros _ _ out label.
  assert (Hidle : submitted = false \/ strip nm = "" ->
                  out = (Returned tt, db)).
  { unfold out, new_cat, new_cat_form. intros [->| ->]; [reflexivity|].
    simpl. now rewrite andb_false_r. }
  assert (Htaken : submitted = true -> strip nm <> "" ->
                   In (strip nm) (map name (categories db)) ->
                   out = (Raised (IntegrityError UNIQUE_categories_name), db)).
  { intros -> Hnm Hin. unfold out, new_cat, new_cat_form.
    apply truthy_true in Hnm. rewrite Hnm. simpl andb. cbv iota.
    now apply create_category_taken. }
  assert (Hfree : submitted = true -> strip nm <> "" ->
                  ~ In (strip nm) (map name (categories db)) ->
                  out = (Returned tt,
                         mkdb (categories db
                                 ++ [mkcategory
                                       (next_rowid (map cat_id (categories db)))
                                       (strip nm) (int_value ipp)
                                       (float_value uv) label])
                           (clicks db))).
  { intros -> Hnm Hnew. unfold out, new_cat, new_cat_form.
    apply truthy_true in Hnm. rewrite Hnm. simpl andb. cbv iota.
    now apply create_category_fresh. }
  split; [exact Hidle|]. split; [exact Htaken|]. split; [exact Hfree|].
  assert (Hcases :
    out = (Returned tt, db)
    \/ out = (Raised (IntegrityError UNIQUE_categories_name), db)
    \/ (strip nm <> ""
        /\ out = (Returned tt,
                  mkdb (categories db
                          ++ [mkcategory
                                (next_rowid (map cat_id (categories db)))
                                (strip nm) (int_value ipp)
                                (float_value uv) label])
                    (clicks db)))).
  { destruct submitted; [|now left; apply Hidle; left].
    destruct (string_dec (strip nm) "") as [He|Hne];
      [now left; apply Hidle; right|].
    destruct (in_dec string_dec (strip nm) (map name (categories db)))
      as [Hin|Hout]; [right; left | right; right]; auto. }
  split; [|split].
  - destruct Hcases as [-> |[-> |[_ ->]]]; reflexivity.
  - intros row Hrow.
    destruct Hcases as [E|[E|[Hne E]]]; rewrite E in Hrow; simpl in Hrow;
      [now left | now left |].
    apply in_app_or in Hrow as [Hold|[<-|[]]]; [now left|]. right. simpl.
    split; [reflexivity|]. split; [exact Hne|].
    split; [apply int_min|]. split; [apply float_min|].
    split; [reflexivity | apply label_not_empty].
  - reflexivity.
Qed.

Lemma new_cat_form_outcome_witness :
  sqlite_integer 2
  /\ rowids_below_max (map cat_id (categories (snd first_start)))
  /\ new_cat (snd first_start) true " Livres " (mkint_input 1 2 ltac:(lia))
       (mkfloat_input 0 (12 # 1) ltac:(unfold Qle; simpl; lia)) "  "
     = (Returned tt,
        mkdb (categories (snd first_start)
                ++ [mkcategory 4 "Livres" 2 (12 # 1) "item"])
          []).
Proof.
  assert (Hi : sqlite_integer 2) by (unfold sqlite_integer; lia).
  assert (Hr : rowids_below_max (map cat_id (categories (snd first_start)))).
  { intros i Hi'. vm_compute in Hi'. intuition lia. }
  split; [exact Hi|]. split; [exact Hr|].
  refine (proj1 (proj2 (proj2
            (new_cat_form_outcome (snd first_start) true " Livres "
               (mkint_input 1 2 _) (mkfloat_input 0 (12 # 1) _) "  "
               Hi Hr))) eq_refl _ _).
  - discriminate.
  - simpl. intuition discriminate.
Defined.

(** ** Undoing a click, seen in the history *)

Section HistoryUndo.

Lemma insert_by_id_desc_above (r : history_row) (l : list history_row) :
  (forall x, In x l -> h_id x < h_id r) -> insert_by_id_desc r l = r :: l.
Proof.
  destruct l as [|x l]; intros Hlt; simpl; [reflexivity|].
  destruct (Z.ltb_spec (h_id x) (h_id r)) as [_|Hge]; [reflexivity|].
  specialize (Hlt x (or_introl eq_refl)). lia.
Qed.

Lemma filter_insert_kept (p : history_row -> bool) (r : history_row)
    (l : list history_row) :
  StronglySorted newest_first l -> p r = true ->
  filter p (insert_by_id_desc r l) = insert_by_id_desc r (filter p l).
Proof.
  intros Hs Hr. induction Hs as [|x l Hs IH Hall]; simpl.
  - now rewrite Hr.
  - destruct (Z.ltb_spec (h_id x) (h_id r)) as [Hlt|Hge].
    + change (filter p (r :: x :: l)) with
        (if p r then r :: filter p (x :: l) else filter p (x :: l)).
      rewrite Hr. symmetry. apply insert_by_id_desc_above.
      intros y Hy. apply filter_In in Hy as [[<-|Hy] _]; [exact Hlt|].
      rewrite Forall_forall in Hall. specialize (Hall y Hy).
      unfold newest_first in Hall. lia.
    + simpl. destruct (p x); simpl; rewrite IH; [|reflexivity].
      destruct (Z.ltb_spec (h_id x) (h_id r)); [lia | reflexivity].
Qed.

Lemma filter_insert_dropped (p : history_row -> bool) (r : history_row)
    (l : list history_row) :
  p r = false -> filter p (insert_by_id_desc r l) = filter p l.
Proof.
  intros Hr. induction l as [|x l IH]; simpl; [now rewrite Hr|].
  destruct (h_id x <? h_id r); simpl; [now rewrite Hr|].
  now rewrite IH.
Qed.

Lemma order_by_id_desc_strongly (l : list history_row) :
  StronglySorted newest_first (order_by_id_desc l).
Proof.
  apply Sorted_StronglySorted; [|apply order_by_id_desc_sorted].
  intros a b c. unfold newest_first. lia.
Qed.

(** Sorting what a filter keeps is filtering what is sorted. *)
Lemma filter_order_by_id_desc (p : history_row -> bool)
    (l : list history_row) :
  order_by_id_desc (filter p l) = filter p (order_by_id_desc l).
Proof.
  induction l as [|r l IH]; simpl; [reflexivity|].
  destruct (p r) eqn:Hr.
  - simpl. rewrite IH. symmetry.
    apply filter_insert_kept; [apply order_by_id_desc_strongly | exact Hr].
  - now rewrite filter_insert_dropped.
Qed.

Lemma join_filtered (cats : list category_row) (cls : list click_row) (m : Z) :
  flat_map (join_click cats)
    (filter (fun c => negb (click_id c =? m)) cls)
  = filter (fun row => negb (h_id row =? m)) (flat_map (join_click cats) cls).
Proof.
  induction cls as [|c cls IH]; simpl; [reflexivity|].
  rewrite filter_app, <- IH.
  assert (Hrows : forall keep : bool,
            filter (fun _ : history_row => keep) (join_click cats c)
            = if keep then join_click cats c else []).
  { intros []; [apply forallb_filter_id; now apply forallb_forall|].
    induction (join_click cats c); simpl; auto. }
  rewrite (filter_ext_in (fun row => negb (h_id row =? m))
             (fun _ => negb (click_id c =? m))).
  - rewrite Hrows. now destruct (negb (click_id c =? m)).
  - intros row Hrow. apply in_join_click in Hrow as (cat & _ & _ & ->).
    reflexivity.
Qed.

(** Undoing drops from the history the rows of the highest click id. *)
Lemma history_after_undo (db : database) (m : Z) :
  max_rowid (map click_id (clicks db)) = Some m ->
  get_clicks_dataframe (snd (undo_last_click db))
  = filter (fun row => negb (h_id row =? m)) (get_clicks_dataframe db).
Proof.
  intros Hm. rewrite !get_clicks_dataframe_rows.
  unfold undo_last_click, select_last_click_id, get_conn, connect.
  cbn [work]. rewrite Hm. cbn [snd commit delete_click work categories clicks].
  now rewrite join_filtered, filter_order_by_id_desc.
Qed.

(** In a list by descending id without a repeated id, the rows whose id is
    not the largest are the rows after the first. *)
Lemma drop_newest (l : list history_row) (m : Z) :
  StronglySorted newest_first l -> NoDup (map h_id l) ->
  In m (map h_id l) -> (forall i, In i (map h_id l) -> i <= m) ->
  filter (fun row => negb (h_id row =? m)) l = tl l.
Proof.
  intros Hs Hnd Hin Hmax. destruct l as [|x l]; [reflexivity|].
  simpl in *. inversion Hs as [|? ? _ Hall]; subst.
  apply NoDup_cons_iff in Hnd as [Hfresh _].
  rewrite Forall_forall in Hall. unfold newest_first in Hall.
  assert (Hx : h_id x = m).
  { destruct Hin as [He|Hin]; [exact He|].
    apply in_map_iff in Hin as (y & <- & Hy). specialize (Hall y Hy).
    specialize (Hmax (h_id x) (or_introl eq_refl)). lia. }
  rewrite Hx, Z.eqb_refl. simpl.
  apply forallb_filter_id, forallb_forall. intros y Hy.
  apply negb_true_iff, Z.eqb_neq. intros He. apply Hfresh.
  rewrite Hx, <- He. now apply in_map.
Qed.

End HistoryUndo.

(** X16. When the ids are unique and every click names a category of the
    table, [undo_last_click] takes the first row off the history and leaves
    the other rows in their order; an empty history stays empty. *)
Theorem undo_drops_first_history_row (db : database) :
  well_formed db -> referential db ->
  get_clicks_dataframe (snd (undo_last_click db))
  = tl (get_clicks_dataframe db).
Proof.
  intros [Hc Hn Hk] Href.
  destruct (max_rowid (map click_id (clicks db))) as [m|] eqn:Hm.
  - rewrite (history_after_undo db m Hm).
    pose proof (history_ids db Hc Href) as Hp.
    apply drop_newest.
    + rewrite get_clicks_dataframe_rows. apply order_by_id_desc_strongly.
    + apply (Permutation_NoDup (Permutation_sym Hp) Hk).
    + apply (Permutation_in m (Permutation_sym Hp)).
      now apply max_rowid_in.
    + intros i Hi. apply (max_rowid_upper _ m Hm).
      now apply (Permutation_in i Hp).
  - apply max_rowid_none, map_eq_nil in Hm.
    rewrite !get_clicks_dataframe_rows.
    unfold undo_last_click, select_last_click_id, get_conn, connect.
    cbn [work]. rewrite Hm. simpl. rewrite Hm. reflexivity.
Qed.

Lemma undo_drops_first_history_row_witness :
  well_formed (mkdb [mkcategory 1 "Burgers" 3 16 "burger"]
                 [mkclick 1 1 "2024-01-15T12:00:00" "faim" 1;
                  mkclick 2 1 "2024-01-16T12:00:00" "envie" 1])
  /\ referential (mkdb [mkcategory 1 "Burgers" 3 16 "burger"]
                    [mkclick 1 1 "2024-01-15T12:00:00" "faim" 1;
                     mkclick 2 1 "2024-01-16T12:00:00" "envie" 1])
  /\ get_clicks_dataframe
       (snd (undo_last_click
               (mkdb [mkcategory 1 "Burgers" 3 16 "burger"]
                  [mkclick 1 1 "2024-01-15T12:00:00" "faim" 1;
                   mkclick 2 1 "2024-01-16T12:00:00" "envie" 1])))
     = [mkhistory 1 "Burgers" "2024-01-15T12:00:00" "faim" 1].
Proof.
  assert (Hwf : well_formed
                  (mkdb [mkcategory 1 "Burgers" 3 16 "burger"]
                     [mkclick 1 1 "2024-01-15T12:00:00" "faim" 1;
                      mkclick 2 1 "2024-01-16T12:00:00" "envie" 1])).
  { constructor; simpl; repeat constructor; simpl; intuition discriminate. }
  assert (Href : referential
                   (mkdb [mkcategory 1 "Burgers" 3 16 "burger"]
                      [mkclick 1 1 "2024-01-15T12:00:00" "faim" 1;
                       mkclick 2 1 "2024-01-16T12:00:00" "envie" 1])).
  { intros c [<-|[<-|[]]]; simpl; tauto. }
  split; [exact Hwf|]. split; [exact Href|].
  exact (undo_drops_first_history_row _ Hwf Href).
Defined.
